(** * SABA lifecycle orchestration engine: a shallow embedding

    The development follows the TypeScript sources of the orchestrator:
    - [types.ts]                      enums and database models
    - [engines/memory.engine.ts]      [MemoryEngine]    (persistence accessors)
    - [engines/logger.ts]             [Logger]
    - [interfaces/telegram.interface.ts] [Telegram]     (admin notifications)
    - [engines/state.manager.ts]      [StateManager]
    - [engines/approval.engine.ts]    [ApprovalEngine]
    - [engines/deployment.engine.ts]  [DeploymentEngine]
    - [engines/monitor.engine.ts]     [MonitorEngine]
    - [engines/recovery.engine.ts]    [RecoveryEngine]

    Asynchronous methods become computations in a state-and-exception monad
    [M] over one [World] holding the database tables, the engines' private
    maps, the admin channel's outbox and the environment (clock, scheduled
    external events, outcomes of child processes and of the container
    runtime).  [await]ed calls run to completion in program order; other
    tasks of the event loop act only while the modelled task sleeps.

    Conventions of the model:
    - the database answers every query ([pool.query] does not throw), and
      the admin channel accepts every message (its [send*] methods catch
      transport errors themselves);
    - [Date.now()] reads a logical clock that only [sleep] advances, by
      exactly the requested delay;
    - commands run with [execSync] and calls of the container runtime
      succeed or fail as the environment dictates;
    - JavaScript numbers are exact integers and rationals. *)

From Stdlib Require Import Ascii String ZArith QArith Qcanon Lia.
From stdpp Require Import gmap strings list fin_maps pretty.

Open Scope string_scope.
Open Scope Z_scope.

(* ===================================================================== *)
(** * types.ts *)
(* ===================================================================== *)

Inductive AgentState :=
| REQUESTED | PLANNING_INITIAL | PLANNING_DETAILED | SECURITY_DEFINED
| WAITING_APPROVAL | GENERATING | VALIDATING | DEPLOYING
| ACTIVE | PAUSED | FAILED | DELETED.

Inductive RiskLevel := SAFE | MODERATE | SENSITIVE | CRITICAL.

Inductive ApprovalType :=
| INITIAL_PLAN | DETAILED_PLAN | SECURITY_RULES | DEPLOYMENT
| MODIFICATION | DELETION.

Inductive ApprovalStatus := PENDING | APPROVED | REJECTED | TIMEOUT.

Inductive DeploymentTarget := LOCAL | DOCKER | CLOUD | VM | SERVER.

Inductive LogType :=
| LT_INFO | LT_WARNING | LT_ERROR | LT_SECURITY | LT_APPROVAL
| LT_STATE_TRANSITION | LT_GENERATION | LT_VALIDATION | LT_DEPLOYMENT
| LT_MONITORING.

Inductive LogLevel := LL_INFO | LL_WARNING | LL_ERROR | LL_CRITICAL.

#[global] Instance AgentState_eq_dec : EqDecision AgentState.
Proof. solve_decision. Defined.
#[global] Instance RiskLevel_eq_dec : EqDecision RiskLevel.
Proof. solve_decision. Defined.
#[global] Instance ApprovalType_eq_dec : EqDecision ApprovalType.
Proof. solve_decision. Defined.
#[global] Instance ApprovalStatus_eq_dec : EqDecision ApprovalStatus.
Proof. solve_decision. Defined.
#[global] Instance DeploymentTarget_eq_dec : EqDecision DeploymentTarget.
Proof. solve_decision. Defined.
#[global] Instance LogLevel_eq_dec : EqDecision LogLevel.
Proof. solve_decision. Defined.

(** The string value of each enum member, as used in template literals. *)
Definition AgentState_str (s : AgentState) : string :=
  match s with
  | REQUESTED => "REQUESTED" | PLANNING_INITIAL => "PLANNING_INITIAL"
  | PLANNING_DETAILED => "PLANNING_DETAILED"
  | SECURITY_DEFINED => "SECURITY_DEFINED"
  | WAITING_APPROVAL => "WAITING_APPROVAL" | GENERATING => "GENERATING"
  | VALIDATING => "VALIDATING" | DEPLOYING => "DEPLOYING"
  | ACTIVE => "ACTIVE" | PAUSED => "PAUSED" | FAILED => "FAILED"
  | DELETED => "DELETED"
  end.

Definition ApprovalStatus_str (s : ApprovalStatus) : string :=
  match s with
  | PENDING => "PENDING" | APPROVED => "APPROVED"
  | REJECTED => "REJECTED" | TIMEOUT => "TIMEOUT"
  end.

Definition DeploymentTarget_str (t : DeploymentTarget) : string :=
  match t with
  | LOCAL => "local" | DOCKER => "docker" | CLOUD => "cloud"
  | VM => "vm" | SERVER => "server"
  end.

(** An optional string that is truthy: present and not empty. *)
Definition truthy (o : option string) : option string :=
  match o with
  | Some "" => None
  | _ => o
  end.

(** [Array.prototype.includes] on a list of enum members. *)
Definition includes {A} `{EqDecision A} (l : list A) (x : A) : bool :=
  bool_decide (x ∈ l).

(** A JavaScript [Error]: its message and its stack text. *)
Record Error := mkError { message : string; stack : option string }.

Definition newError (msg : string) : Error :=
  {| message := msg; stack := Some ("Error: " +:+ msg) |}.

(** [`${error}`] for an [Error] value. *)
Definition Error_str (e : Error) : string := "Error: " +:+ message e.

(** Database models (the columns the engines read or write). *)
Record Agent := mkAgent {
  id : string;
  name : string;
  goal : string;
  status : AgentState;
  risk_level : RiskLevel;
  deployment_target : DeploymentTarget;
}.

Record Approval := mkApproval {
  ap_id : string;
  ap_agent_id : string;
  approval_type : ApprovalType;
  ap_status : ApprovalStatus;
  approved_by : option string;
  approval_notes : option string;
  responded : bool;  (* responded_at IS NOT NULL *)
}.

Record LogEntry := mkLog {
  log_agent_id : option string;
  log_type : LogType;
  level : LogLevel;
  log_message : string;
}.

Record ResourceLimits := mkLimits {
  memory_limit : option string;
  cpu_limit : option string;
}.

Record DeploymentStrategy := mkStrategy {
  target : DeploymentTarget;
  environment_variables : list (string * string);
  resource_limits : option ResourceLimits;
}.

Inductive AlertAction := ANotify | ARestart | APause | AEscalate.
Inductive Comparison := CGt | CLt | CGe | CLe | CEq | CNe.

Record AlertCondition := mkAlert {
  metric : string;
  threshold : Z;
  comparison : Comparison;
  action : AlertAction;
}.

Record MonitoringStrategy := mkMonitoring {
  health_check_interval_ms : Z;
  alert_conditions : list AlertCondition;
}.

Record DeploymentResult := mkResult {
  success : bool;
  deployment_id : option string;
  process_id : option Z;
  container_id : option string;
  error_message : option string;
}.

Inductive HealthKind := healthy | unhealthy | degraded | unknown.
#[global] Instance HealthKind_eq_dec : EqDecision HealthKind.
Proof. solve_decision. Defined.

Definition HealthKind_str (k : HealthKind) : string :=
  match k with
  | healthy => "healthy" | unhealthy => "unhealthy"
  | degraded => "degraded" | unknown => "unknown"
  end.

Record HealthStatus := mkHealth {
  h_agent_id : string;
  h_agent_name : string;
  h_status : HealthKind;
  uptime_ms : Z;
  metrics : gmap string Z;
  issues : list string;
}.

(** config.ts: the values read by the engines, with their defaults. *)
Record Config := mkConfig {
  maxRetryAttempts : nat;
  approvalTimeoutMs : Z;
  alertErrorThreshold : Z;
}.

Definition defaultConfig : Config :=
  {| maxRetryAttempts := 3; approvalTimeoutMs := 3600000;
     alertErrorThreshold := 10 |}.

(* ===================================================================== *)
(** * JavaScript string-to-number conversions *)
(* ===================================================================== *)

Module JS.

Definition is_digit (c : ascii) : bool :=
  let n := nat_of_ascii c in (48 <=? n)%nat && (n <=? 57)%nat.

Definition digit_val (c : ascii) : Z := Z.of_nat (nat_of_ascii c) - 48.

(** The decimal value of a string of digits, most significant first. *)
Fixpoint digits_val (acc : Z) (s : string) : Z :=
  match s with
  | EmptyString => acc
  | String c s' => digits_val (10 * acc + digit_val c) s'
  end.


(** The longest prefix of digits, and what follows it. *)
Fixpoint span_digits (s : string) : string * string :=
  match s with
  | String c s' =>
      if is_digit c then
        let '(ds, rest) := span_digits s' in (String c ds, rest)
      else (EmptyString, s)
  | EmptyString => (EmptyString, EmptyString)
  end.

(** [parseInt] on a non-empty string of decimal digits. *)
Definition parseInt (s : string) : Z := digits_val 0 s.

Definition to_lower (c : ascii) : ascii :=
  let n := nat_of_ascii c in
  if (65 <=? n)%nat && (n <=? 90)%nat then ascii_of_nat (n + 32) else c.

(** A JavaScript number as far as the engine produces them: an exact
    rational or an infinity.  Rounding to binary64 is not modelled, so
    the model agrees with the program on the values binary64 represents
    exactly (for integers, those below [2^53]). *)
Inductive Number :=
| Num (q : Qc)
| Infinity (negative : bool).

Definition is_space (c : ascii) : bool :=
  let n := nat_of_ascii c in
  ((9 <=? n)%nat && (n <=? 13)%nat) || (n =? 32)%nat.

Fixpoint trim_start (s : string) : string :=
  match s with
  | String c s' => if is_space c then trim_start s' else s
  | EmptyString => s
  end.

Definition take_sign (s : string) : bool * string :=
  match s with
  | String "-" s' => (true, s')
  | String "+" s' => (false, s')
  | _ => (false, s)
  end.

Definition pow10 (e : Z) : Qc :=
  if 0 <=? e then Q2Qc (inject_Z (10 ^ e))
  else Q2Qc (1 # Z.to_pos (10 ^ (- e))).

(** The exponent part [e[+-]digits], when present and well formed. *)
Definition exponent (s : string) : Z :=
  match s with
  | String c s' =>
      if bool_decide (to_lower c = "e"%char) then
        let '(neg, s'') := take_sign s' in
        let '(ds, _) := span_digits s'' in
        match ds with
        | EmptyString => 0
        | _ => if neg then - digits_val 0 ds else digits_val 0 ds
        end
      else 0
  | EmptyString => 0
  end.

(** [parseFloat]: the longest prefix that is a decimal literal, after
    leading white space; [None] stands for [NaN]. *)
Definition parseFloat (s : string) : option Number :=
  let '(neg, s1) := take_sign (trim_start s) in
  if String.prefix "Infinity" s1 then Some (Infinity neg)
  else
    let '(ip, s2) := span_digits s1 in
    let '(fp, s3) :=
      match s2 with
      | String "." s2' => span_digits s2'
      | _ => (EmptyString, s2)
      end in
    match ip, fp with
    | EmptyString, EmptyString => None
    | _, _ =>
        let mant := digits_val 0 (ip +:+ fp) in
        let e := exponent s3 - Z.of_nat (String.length fp) in
        let q := (Q2Qc (inject_Z mant) * pow10 e)%Qc in
        Some (Num (if neg then (- q)%Qc else q))
    end.

Definition times (x : Number) (k : Z) : Number :=
  match x with
  | Num q => Num (q * Q2Qc (inject_Z k))%Qc
  | Infinity neg => Infinity neg
  end.

End JS.

(* ===================================================================== *)
(** * The world the engines act on *)
(* ===================================================================== *)

(** A Node [ChildProcess] object.  [killed] is set by a successful
    [kill()] call of the parent; a process that ends on its own only gets
    an [exitCode]. *)
Record ChildProcess := mkProc {
  pid : Z;
  killed : bool;
  exitCode : option Z;
}.

Inductive DeploymentStatus := running | stopped | failed.

Record DeploymentMetadata := mkDeployment {
  d_agentId : string;
  d_agentName : string;
  d_target : DeploymentTarget;
  d_processId : option Z;
  d_containerId : option string;
  deployedAt : Z;
  d_status : DeploymentStatus;
}.

Record MonitoringSession := mkSession {
  s_agentId : string;
  s_agentName : string;
  s_strategy : MonitoringStrategy;
  startedAt : Z;
  healthHistory : list HealthStatus;
}.

(** Messages handed to the admin channel, one constructor per
    [TelegramInterface.send*] method, holding the call's arguments. *)
Inductive Notification :=
| ApprovalRequestMsg (agentName : string) (ty : ApprovalType)
                     (approvalId details : string)
| StatusUpdateMsg (agentName statusText : string) (details : option string)
| AlertMsg (agentName alertType text : string)
| ErrorMsg (agentName errorMessage : string) (errorStack : option string)
| SuccessMsg (agentName text : string).

(** What other tasks of the event loop do while the modelled task sleeps:
    the admin answers an approval (the callback-query path writes the
    status with [updateApprovalStatus]); a spawned process ends by itself;
    another task sends the process a signal with [kill()]. *)
Inductive Event :=
| EvApprovalResponse (approvalId : string) (st : ApprovalStatus)
                     (approver : string)
| EvProcessExit (p : Z) (code : Z)
| EvKill (p : Z).

(** The options object passed to [docker.createContainer]. *)
Record HostConfig := mkHostConfig {
  RestartPolicy : string;
  Memory : option Z;
  NanoCpus : option JS.Number;
}.

Record ContainerOptions := mkContainerOptions {
  Image : string;
  c_name : string;
  Env : list string;
  hostConfig : HostConfig;
}.

(** Calls recorded for counting: a strategy dispatched by
    [RecoveryEngine.recover], and the restart requested by
    [MonitorEngine.handleUnhealthy]. *)
Inductive Call :=
| Dispatch (agentId failureType : string)
| AutoRestart (agentId : string).

#[global] Instance Call_eq_dec : EqDecision Call.
Proof. solve_decision. Defined.

Record World := mkWorld {
  (* PostgreSQL tables *)
  agents : gmap string Agent;
  approvals : gmap string Approval;
  plans : gmap string DeploymentStrategy;
  logs : list LogEntry;
  (* admin channel *)
  outbox : list Notification;
  (* RecoveryEngine.recoveryAttempts *)
  recoveryAttempts : gmap string nat;
  (* DeploymentEngine.deployments, .processes and the process objects *)
  deployments : gmap string DeploymentMetadata;
  processes : gmap string Z;
  procs : gmap Z ChildProcess;
  (* container runtime *)
  containers : gmap string bool;
  created : list ContainerOptions;
  (* MonitorEngine.sessions *)
  sessions : gmap string MonitoringSession;
  (* environment *)
  now : Z;
  events : list (Z * Event);
  exec_outcomes : list (option string);
  docker_outcomes : list (option string);
  next_pid : Z;
  (* recorded calls *)
  calls : list Call;
}.

Definition set_agents f w :=
  mkWorld (f (agents w)) (approvals w) (plans w) (logs w) (outbox w)
    (recoveryAttempts w) (deployments w) (processes w) (procs w)
    (containers w) (created w) (sessions w) (now w) (events w)
    (exec_outcomes w) (docker_outcomes w) (next_pid w) (calls w).
Definition set_approvals f w :=
  mkWorld (agents w) (f (approvals w)) (plans w) (logs w) (outbox w)
    (recoveryAttempts w) (deployments w) (processes w) (procs w)
    (containers w) (created w) (sessions w) (now w) (events w)
    (exec_outcomes w) (docker_outcomes w) (next_pid w) (calls w).
Definition set_plans f w :=
  mkWorld (agents w) (approvals w) (f (plans w)) (logs w) (outbox w)
    (recoveryAttempts w) (deployments w) (processes w) (procs w)
    (containers w) (created w) (sessions w) (now w) (events w)
    (exec_outcomes w) (docker_outcomes w) (next_pid w) (calls w).
Definition set_logs f w :=
  mkWorld (agents w) (approvals w) (plans w) (f (logs w)) (outbox w)
    (recoveryAttempts w) (deployments w) (processes w) (procs w)
    (containers w) (created w) (sessions w) (now w) (events w)
    (exec_outcomes w) (docker_outcomes w) (next_pid w) (calls w).
Definition set_outbox f w :=
  mkWorld (agents w) (approvals w) (plans w) (logs w) (f (outbox w))
    (recoveryAttempts w) (deployments w) (processes w) (procs w)
    (containers w) (created w) (sessions w) (now w) (events w)
    (exec_outcomes w) (docker_outcomes w) (next_pid w) (calls w).
Definition set_recoveryAttempts f w :=
  mkWorld (agents w) (approvals w) (plans w) (logs w) (outbox w)
    (f (recoveryAttempts w)) (deployments w) (processes w) (procs w)
    (containers w) (created w) (sessions w) (now w) (events w)
    (exec_outcomes w) (docker_outcomes w) (next_pid w) (calls w).
Definition set_deployments f w :=
  mkWorld (agents w) (approvals w) (plans w) (logs w) (outbox w)
    (recoveryAttempts w) (f (deployments w)) (processes w) (procs w)
    (containers w) (created w) (sessions w) (now w) (events w)
    (exec_outcomes w) (docker_outcomes w) (next_pid w) (calls w).
Definition set_processes f w :=
  mkWorld (agents w) (approvals w) (plans w) (logs w) (outbox w)
    (recoveryAttempts w) (deployments w) (f (processes w)) (procs w)
    (containers w) (created w) (sessions w) (now w) (events w)
    (exec_outcomes w) (docker_outcomes w) (next_pid w) (calls w).
Definition set_procs f w :=
  mkWorld (agents w) (approvals w) (plans w) (logs w) (outbox w)
    (recoveryAttempts w) (deployments w) (processes w) (f (procs w))
    (containers w) (created w) (sessions w) (now w) (events w)
    (exec_outcomes w) (docker_outcomes w) (next_pid w) (calls w).
Definition set_containers f w :=
  mkWorld (agents w) (approvals w) (plans w) (logs w) (outbox w)
    (recoveryAttempts w) (deployments w) (processes w) (procs w)
    (f (containers w)) (created w) (sessions w) (now w) (events w)
    (exec_outcomes w) (docker_outcomes w) (next_pid w) (calls w).
Definition set_created f w :=
  mkWorld (agents w) (approvals w) (plans w) (logs w) (outbox w)
    (recoveryAttempts w) (deployments w) (processes w) (procs w)
    (containers w) (f (created w)) (sessions w) (now w) (events w)
    (exec_outcomes w) (docker_outcomes w) (next_pid w) (calls w).
Definition set_sessions f w :=
  mkWorld (agents w) (approvals w) (plans w) (logs w) (outbox w)
    (recoveryAttempts w) (deployments w) (processes w) (procs w)
    (containers w) (created w) (f (sessions w)) (now w) (events w)
    (exec_outcomes w) (docker_outcomes w) (next_pid w) (calls w).
Definition set_now f w :=
  mkWorld (agents w) (approvals w) (plans w) (logs w) (outbox w)
    (recoveryAttempts w) (deployments w) (processes w) (procs w)
    (containers w) (created w) (sessions w) (f (now w)) (events w)
    (exec_outcomes w) (docker_outcomes w) (next_pid w) (calls w).
Definition set_events f w :=
  mkWorld (agents w) (approvals w) (plans w) (logs w) (outbox w)
    (recoveryAttempts w) (deployments w) (processes w) (procs w)
    (containers w) (created w) (sessions w) (now w) (f (events w))
    (exec_outcomes w) (docker_outcomes w) (next_pid w) (calls w).
Definition set_exec_outcomes f w :=
  mkWorld (agents w) (approvals w) (plans w) (logs w) (outbox w)
    (recoveryAttempts w) (deployments w) (processes w) (procs w)
    (containers w) (created w) (sessions w) (now w) (events w)
    (f (exec_outcomes w)) (docker_outcomes w) (next_pid w) (calls w).
Definition set_docker_outcomes f w :=
  mkWorld (agents w) (approvals w) (plans w) (logs w) (outbox w)
    (recoveryAttempts w) (deployments w) (processes w) (procs w)
    (containers w) (created w) (sessions w) (now w) (events w)
    (exec_outcomes w) (f (docker_outcomes w)) (next_pid w) (calls w).
Definition set_next_pid f w :=
  mkWorld (agents w) (approvals w) (plans w) (logs w) (outbox w)
    (recoveryAttempts w) (deployments w) (processes w) (procs w)
    (containers w) (created w) (sessions w) (now w) (events w)
    (exec_outcomes w) (docker_outcomes w) (f (next_pid w)) (calls w).
Definition set_calls f w :=
  mkWorld (agents w) (approvals w) (plans w) (logs w) (outbox w)
    (recoveryAttempts w) (deployments w) (processes w) (procs w)
    (containers w) (created w) (sessions w) (now w) (events w)
    (exec_outcomes w) (docker_outcomes w) (next_pid w) (f (calls w)).

(** An engine freshly constructed over an empty database. *)
Definition emptyWorld : World :=
  mkWorld ∅ ∅ ∅ [] [] ∅ ∅ ∅ ∅ ∅ [] ∅ 0 [] [] [] 1000 [].

(* ===================================================================== *)
(** * Promises as a state-and-exception monad *)
(* ===================================================================== *)

(** A call returns a value, throws, or (for the one loop of the program)
    is cut off by its iteration bound. *)
Inductive Outcome (A : Type) :=
| Ret (a : A)
| Throw (e : Error)
| Cut.
Arguments Ret {A} a.
Arguments Throw {A} e.
Arguments Cut {A}.

Definition M (A : Type) : Type := World -> Outcome A * World.

#[global] Instance M_ret : MRet M := fun A a w => (Ret a, w).
#[global] Instance M_bind : MBind M := fun A B f m w =>
  match m w with
  | (Ret a, w') => f a w'
  | (Throw e, w') => (Throw e, w')
  | (Cut, w') => (Cut, w')
  end.

Definition throw {A} (e : Error) : M A := fun w => (Throw e, w).
Definition cut {A} : M A := fun w => (Cut, w).

(** [try { body } catch (error) { handler }] *)
Definition try_catch {A} (body : M A) (handler : Error -> M A) : M A :=
  fun w =>
    match body w with
    | (Throw e, w') => handler e w'
    | r => r
    end.

Definition gets {A} (f : World -> A) : M A := fun w => (Ret (f w), w).
Definition modify (f : World -> World) : M unit := fun w => (Ret tt, f w).

(** The world reached and the value returned by a computation. *)
Definition exec {A} (m : M A) (w : World) : World := snd (m w).
Definition result {A} (m : M A) (w : World) : Outcome A := fst (m w).

(* ===================================================================== *)
(** * engines/memory.engine.ts *)
(* ===================================================================== *)

Module MemoryEngine.

(** [x || null] on an optional string argument. *)
Definition or_null (o : option string) : option string := truthy o.

(** [SELECT * FROM agents WHERE id = $1] *)
Definition getAgent (agentId : string) : M (option Agent) :=
  gets (fun w => agents w !! agentId).

Definition with_status (s : AgentState) (a : Agent) : Agent :=
  mkAgent (id a) (name a) (goal a) s (risk_level a) (deployment_target a).

(** [UPDATE agents SET status = $1 WHERE id = $2]: no row, no change. *)
Definition updateAgentState (agentId : string) (newState : AgentState)
  : M unit :=
  modify (set_agents (alter (with_status newState) agentId)).

Definition deleteAgent (agentId : string) : M unit :=
  updateAgentState agentId DELETED.

(** The deployment strategy of the latest detailed plan of the agent. *)
Definition getPlan (agentId : string) : M (option DeploymentStrategy) :=
  gets (fun w => plans w !! agentId).

Definition getApproval (approvalId : string) : M (option Approval) :=
  gets (fun w => approvals w !! approvalId).

Definition resolve (st : ApprovalStatus) (approvedBy notes : option string)
    (a : Approval) : Approval :=
  mkApproval (ap_id a) (ap_agent_id a) (approval_type a) st
             (or_null approvedBy) (or_null notes) true.

(** [UPDATE approvals SET status = $1, approved_by = $2, ...,
    responded_at = NOW() WHERE id = $5]: the row's former status is not
    consulted. *)
Definition updateApprovalStatus (approvalId : string) (st : ApprovalStatus)
    (approvedBy notes : option string) : M unit :=
  modify (set_approvals (alter (resolve st approvedBy notes) approvalId)).

(** [INSERT INTO logs ...]; the table is kept newest row first. *)
Definition log (ty : LogType) (lv : LogLevel) (msg : string)
    (agentId : option string) : M unit :=
  modify (set_logs (cons (mkLog (or_null agentId) ty lv msg))).

Definition matches_agent (agentId : option string) (e : LogEntry) : bool :=
  match or_null agentId with
  | Some a => bool_decide (log_agent_id e = Some a)
  | None => true
  end.

Definition matches_level (lv : option LogLevel) (e : LogEntry) : bool :=
  match lv with
  | Some l => bool_decide (level e = l)
  | None => true
  end.

(** [getLogs(agentId, undefined, level, limit)]:
    [... ORDER BY created_at DESC LIMIT $n]. *)
Definition getLogs (agentId : option string) (lv : option LogLevel)
    (limit : nat) : M (list LogEntry) :=
  gets (fun w =>
    take limit
      (filter (fun e => matches_agent agentId e && matches_level lv e = true)
              (logs w))).

Definition getRecentErrors (agentId : option string) (limit : nat)
  : M (list LogEntry) :=
  getLogs agentId (Some LL_ERROR) limit.

End MemoryEngine.

(* ===================================================================== *)
(** * engines/logger.ts *)
(* ===================================================================== *)

Module Logger.

(** [persistLog] swallows a failed insert; every method logs to winston
    and then persists the row. *)
Definition persistLog (ty : LogType) (lv : LogLevel) (msg : string)
    (agentId : option string) : M unit :=
  try_catch (MemoryEngine.log ty lv msg agentId) (fun _ => mret tt).

Definition info (msg : string) (agentId : option string) : M unit :=
  persistLog LT_INFO LL_INFO msg agentId.

Definition warning (msg : string) (agentId : option string) : M unit :=
  persistLog LT_WARNING LL_WARNING msg agentId.

Definition error (msg : string) (err : option Error)
    (agentId : option string) : M unit :=
  persistLog LT_ERROR LL_ERROR msg agentId.

Definition approval (msg : string) (agentId : option string) : M unit :=
  persistLog LT_APPROVAL LL_INFO msg agentId.

Definition stateTransition (msg agentId fromState toState : string)
  : M unit :=
  let fullMessage :=
    "State transition: " +:+ fromState +:+ " → " +:+ toState +:+ " - "
      +:+ msg in
  persistLog LT_STATE_TRANSITION LL_INFO fullMessage (Some agentId).

Definition deployment (msg : string) (agentId : string) : M unit :=
  persistLog LT_DEPLOYMENT LL_INFO msg (Some agentId).

Definition monitoring (msg : string) (agentId : string) : M unit :=
  persistLog LT_MONITORING LL_INFO msg (Some agentId).

End Logger.

(* ===================================================================== *)
(** * interfaces/telegram.interface.ts (notification methods) *)
(* ===================================================================== *)

Module Telegram.

Definition send (n : Notification) : M unit :=
  modify (set_outbox (fun o => (o ++ [n])%list)).

Definition sendStatusUpdate (agentName st : string)
    (details : option string) : M unit :=
  send (StatusUpdateMsg agentName st details).

Definition sendAlert (agentName alertType msg : string) : M unit :=
  send (AlertMsg agentName alertType msg).

Definition sendError (agentName errorMessage : string)
    (errorStack : option string) : M unit :=
  send (ErrorMsg agentName errorMessage errorStack).

Definition sendSuccess (agentName msg : string) : M unit :=
  send (SuccessMsg agentName msg).

End Telegram.

(* ===================================================================== *)
(** * Time and the rest of the event loop *)
(* ===================================================================== *)

Definition with_exit (code : Z) (p : ChildProcess) : ChildProcess :=
  match exitCode p with
  | Some _ => p
  | None => mkProc (pid p) (killed p) (Some code)
  end.

(** [process.kill("SIGTERM")]: the signal is delivered, and [killed] set,
    only while the process has not ended. *)
Definition with_kill (p : ChildProcess) : ChildProcess :=
  match exitCode p with
  | Some _ => p
  | None => mkProc (pid p) true None
  end.

Definition apply_event (e : Event) (w : World) : World :=
  match e with
  | EvApprovalResponse approvalId st approver =>
      exec (MemoryEngine.updateApprovalStatus approvalId st (Some approver)
              None) w
  | EvProcessExit p code => set_procs (alter (with_exit code) p) w
  | EvKill p => set_procs (alter with_kill p) w
  end.

(** Run the scheduled events that are due at time [t], in order. *)
Fixpoint run_due (t : Z) (evs : list (Z * Event)) (w : World)
  : list (Z * Event) * World :=
  match evs with
  | [] => ([], w)
  | (te, e) :: rest =>
      if te <=? t then run_due t rest (apply_event e w)
      else let '(keep, w') := run_due t rest w in ((te, e) :: keep, w')
  end.

(** [await this.sleep(ms)]: the clock advances by [ms] and the other
    tasks' due events take effect. *)
Definition sleep (ms : Z) : M unit := fun w =>
  let t := now w + ms in
  let '(keep, w') := run_due t (events w) w in
  (Ret tt, set_events (fun _ => keep) (set_now (fun _ => t) w')).

(** [Date.now()] *)
Definition Date_now : M Z := gets now.

(* ===================================================================== *)
(** * engines/state.manager.ts *)
(* ===================================================================== *)

Module StateManager.

Definition VALID_TRANSITIONS (s : AgentState) : list AgentState :=
  match s with
  | REQUESTED => [PLANNING_INITIAL; FAILED]
  | PLANNING_INITIAL => [PLANNING_DETAILED; WAITING_APPROVAL; FAILED]
  | PLANNING_DETAILED => [SECURITY_DEFINED; FAILED]
  | SECURITY_DEFINED => [WAITING_APPROVAL; FAILED]
  | WAITING_APPROVAL => [GENERATING; PLANNING_DETAILED; FAILED]
  | GENERATING => [VALIDATING; FAILED]
  | VALIDATING => [DEPLOYING; GENERATING; FAILED]
  | DEPLOYING => [ACTIVE; FAILED]
  | ACTIVE => [PAUSED; DELETED; FAILED]
  | PAUSED => [ACTIVE; DELETED]
  | FAILED => [REQUESTED; GENERATING; DELETED]
  | DELETED => []
  end.

Definition isValidTransition (fromState toState : AgentState) : bool :=
  let allowedStates := VALID_TRANSITIONS fromState in
  includes allowedStates toState.

Definition getValidNextStates (currentState : AgentState)
  : list AgentState :=
  VALID_TRANSITIONS currentState.

Definition getCurrentState (agentId : string) : M (option AgentState) :=
  agent ← MemoryEngine.getAgent agentId;
  mret (status <$> agent).

Definition transitionState (agentId : string) (toState : AgentState)
    (reason : option string) : M bool :=
  try_catch
    (agent ← MemoryEngine.getAgent agentId;
     match agent with
     | None =>
         Logger.error
           ("Cannot transition state: Agent " +:+ agentId +:+ " not found")
           None None;;
         mret false
     | Some agent =>
         let fromState := status agent in
         if negb (isValidTransition fromState toState) then
           Logger.warning
             ("Invalid state transition attempted: "
                +:+ AgentState_str fromState +:+ " → "
                +:+ AgentState_str toState)
             (Some agentId);;
           mret false
         else
           MemoryEngine.updateAgentState agentId toState;;
           Logger.stateTransition
             (default "State transition" (MemoryEngine.or_null reason))
             agentId (AgentState_str fromState) (AgentState_str toState);;
           mret true
     end)
    (fun error =>
       Logger.error
         ("Error during state transition: " +:+ Error_str error)
         (Some error) (Some agentId);;
       mret false).

(** "Transition to FAILED state (always allowed from any state)" *)
Definition transitionToFailed (agentId reason : string)
    (error : option Error) : M unit :=
  agent ← MemoryEngine.getAgent agentId;
  match agent with
  | None =>
      Logger.error
        ("Cannot fail agent: Agent " +:+ agentId +:+ " not found")
        None None
  | Some _ =>
      MemoryEngine.updateAgentState agentId FAILED;;
      Logger.error
        ("Agent transitioned to FAILED state: " +:+ reason)
        error (Some agentId)
  end.

Definition canTransition (agentId : string) (toState : AgentState)
  : M bool :=
  currentState ← getCurrentState agentId;
  match currentState with
  | None => mret false
  | Some s => mret (isValidTransition s toState)
  end.

Definition isTerminalState (s : AgentState) : bool :=
  bool_decide (length (VALID_TRANSITIONS s) = 0%nat).

End StateManager.

(** The persisted state of an agent, if the agent is known. *)
Definition stateOf (w : World) (agentId : string) : option AgentState :=
  status <$> (agents w !! agentId).

Definition someAgent (st : AgentState) : Agent :=
  mkAgent "a1" "echo-bot" "echo" st SAFE LOCAL.

Definition worldWith (a : Agent) : World :=
  set_agents (insert (id a) a) emptyWorld.


(* ===================================================================== *)
(** * engines/approval.engine.ts *)
(* ===================================================================== *)

Module ApprovalEngine.


Definition pollIntervalMs : Z := 5000.

(** The body of [while (Date.now() - startTime < timeoutMs) { ... }],
    unrolled at most [fuel] times. *)
Fixpoint waitLoop (fuel : nat) (approvalId : string)
    (startTime timeoutMs : Z) : M ApprovalStatus :=
  t ← Date_now;
  if t - startTime <? timeoutMs then
    match fuel with
    | O => cut
    | S fuel' =>
        approval ← MemoryEngine.getApproval approvalId;
        match approval with
        | None =>
            throw (newError ("Approval " +:+ approvalId +:+ " not found"))
        | Some approval =>
            if negb (bool_decide (ap_status approval = PENDING)) then
              Logger.approval
                ("Approval " +:+ approvalId +:+ " "
                   +:+ ApprovalStatus_str (ap_status approval))
                (Some (ap_agent_id approval));;
              mret (ap_status approval)
            else
              (* Wait before polling again *)
              sleep pollIntervalMs;;
              waitLoop fuel' approvalId startTime timeoutMs
        end
    end
  else
    (* Timeout *)
    MemoryEngine.updateApprovalStatus approvalId TIMEOUT None None;;
    Logger.warning ("Approval " +:+ approvalId +:+ " timed out") None;;
    mret TIMEOUT.

(** The number of polls that fit before the deadline: the loop body
    runs at clock values [startTime + k * pollIntervalMs]. *)
Definition polls (timeoutMs : Z) : nat :=
  Z.to_nat ((timeoutMs + pollIntervalMs - 1) / pollIntervalMs).

Definition waitForApproval (approvalId : string) (timeoutMs : Z)
  : M ApprovalStatus :=
  Logger.approval ("Waiting for approval: " +:+ approvalId) None;;
  startTime ← Date_now;
  waitLoop (polls timeoutMs) approvalId startTime timeoutMs.

Definition processApproval (approvalId : string) (st : ApprovalStatus)
    (approvedBy : string) (notes : option string) : M unit :=
  Logger.approval
    ("Processing approval " +:+ approvalId +:+ ": "
       +:+ ApprovalStatus_str st) None;;
  MemoryEngine.updateApprovalStatus approvalId st (Some approvedBy) notes;;
  approval ← MemoryEngine.getApproval approvalId;
  match approval with
  | None => mret tt
  | Some approval =>
      (* Send confirmation *)
      if bool_decide (st = APPROVED) then
        Telegram.sendSuccess (ap_agent_id approval)
          ("Approval " +:+ approvalId +:+ " approved by " +:+ approvedBy)
      else if bool_decide (st = REJECTED) then
        Telegram.sendAlert (ap_agent_id approval) "Approval Rejected"
          ("Approval " +:+ approvalId +:+ " rejected by " +:+ approvedBy
             +:+ match MemoryEngine.or_null notes with
                 | Some n => ": " +:+ n
                 | None => ""
                 end)
      else mret tt
  end.

Definition cancelApproval (approvalId reason : string) : M unit :=
  MemoryEngine.updateApprovalStatus approvalId REJECTED (Some "system")
    (Some ("Cancelled: " +:+ reason));;
  Logger.approval
    ("Approval " +:+ approvalId +:+ " cancelled: " +:+ reason) None.

End ApprovalEngine.

(* ===================================================================== *)
(** * engines/deployment.engine.ts *)
(* ===================================================================== *)

Module DeploymentEngine.

(** [limit.match(/^(\d+)([mg])$/i)]: one or more digits followed by a
    single unit letter, and nothing else. *)
Definition match_limit (limit : string) : option (string * ascii) :=
  let '(ds, rest) := JS.span_digits limit in
  match ds, rest with
  | String _ _, String u EmptyString =>
      let l := JS.to_lower u in
      if bool_decide (l = "m"%char) || bool_decide (l = "g"%char)
      then Some (ds, u) else None
  | _, _ => None
  end.

Definition parseMemoryLimit (limit : option string) : option Z :=
  match truthy limit with
  | None => None
  | Some limit =>
      (* Parse memory limit like "512m" or "1g" *)
      match match_limit limit with
      | None => None
      | Some (digits, u) =>
          let value := JS.parseInt digits in
          let unit_ := JS.to_lower u in
          Some (if bool_decide (unit_ = "m"%char)
                then value * 1024 * 1024
                else value * 1024 * 1024 * 1024)
      end
  end.

Definition parseCpuLimit (limit : option string) : option JS.Number :=
  match truthy limit with
  | None => None
  | Some limit =>
      (* Parse CPU limit like "0.5" or "1" *)
      match JS.parseFloat limit with
      | None => None
      | Some value => Some (JS.times value 1000000000) (* nanocpus *)
      end
  end.

(** [execSync(cmd, ...)]: throws when the command fails or times out.
    The next entry of [exec_outcomes] says which; no entry, no failure. *)
Definition execSync (cmd : string) : M unit := fun w =>
  match exec_outcomes w with
  | Some msg :: rest =>
      (Throw (newError msg), set_exec_outcomes (fun _ => rest) w)
  | None :: rest => (Ret tt, set_exec_outcomes (fun _ => rest) w)
  | [] => (Ret tt, w)
  end.

(** [spawn("node", ["dist/brain.js"], ...)]: a new process object. *)
Definition spawn : M Z := fun w =>
  let p := next_pid w in
  (Ret p, set_next_pid Z.succ (set_procs (insert p (mkProc p false None)) w)).

Definition proc_killed (w : World) (p : Z) : bool :=
  match procs w !! p with
  | Some pr => killed pr
  | None => false
  end.

Definition kill (p : Z) : M unit := modify (set_procs (alter with_kill p)).

Definition failure (e : Error) : DeploymentResult :=
  {| success := false; deployment_id := None; process_id := None;
     container_id := None; error_message := Some (message e) |}.

Definition deployLocal (agentId agentName : string)
    (strategy : DeploymentStrategy) : M DeploymentResult :=
  try_catch
    ((* Install dependencies *)
     Logger.info ("Installing dependencies for " +:+ agentName +:+ "...")
       None;;
     execSync "npm install";;
     (* Build the agent *)
     Logger.info ("Building " +:+ agentName +:+ "...") None;;
     execSync "npm run build";;
     (* Start the agent as a background process *)
     Logger.info ("Starting " +:+ agentName +:+ "...") None;;
     childProcess ← spawn;
     (* Store process reference *)
     modify (set_processes (insert agentId childProcess));;
     (* Wait a bit to ensure process started *)
     sleep 2000;;
     (* Check if process is still running *)
     k ← gets (fun w => proc_killed w childProcess);
     if (k : bool) then throw (newError "Process failed to start")
     else
       mret {| success := true; deployment_id := Some agentId;
               process_id := Some childProcess; container_id := None;
               error_message := None |})
    (fun error => mret (failure error)).

(** One call of the container runtime's API: it may reject. *)
Definition docker_call : M unit := fun w =>
  match docker_outcomes w with
  | Some msg :: rest =>
      (Throw (newError msg), set_docker_outcomes (fun _ => rest) w)
  | None :: rest => (Ret tt, set_docker_outcomes (fun _ => rest) w)
  | [] => (Ret tt, w)
  end.

Definition containerOptions (agentName : string)
    (strategy : DeploymentStrategy) : ContainerOptions :=
  {| Image := agentName +:+ ":latest";
     c_name := agentName;
     Env := (fun kv => fst kv +:+ "=" +:+ snd kv)
              <$> environment_variables strategy;
     hostConfig :=
       match resource_limits strategy with
       | Some limits =>
           {| RestartPolicy := "unless-stopped";
              Memory := parseMemoryLimit (memory_limit limits);
              NanoCpus := parseCpuLimit (cpu_limit limits) |}
       | None =>
           {| RestartPolicy := "unless-stopped"; Memory := None;
              NanoCpus := None |}
       end |}.

(** [docker.createContainer(options)]: the runtime records the options
    and hands back a container, identified here by its rank. *)
Definition createContainer (options : ContainerOptions) : M string :=
  docker_call;;
  n ← gets (fun w => length (created w));
  let cid := "container-" +:+ pretty n in
  modify (set_created (fun l => (l ++ [options])%list));;
  modify (set_containers (insert cid false));;
  mret cid.

Definition container_start (cid : string) : M unit :=
  docker_call;; modify (set_containers (insert cid true)).

Definition container_stop (cid : string) : M unit :=
  docker_call;; modify (set_containers (insert cid false)).

(** [container.inspect()]: [State.Running]; an unknown container is an
    API error. *)
Definition container_inspect (cid : string) : M bool :=
  docker_call;;
  r ← gets (fun w => containers w !! cid);
  match r with
  | Some b => mret b
  | None => throw (newError ("No such container: " +:+ cid))
  end.

Definition deployDocker (agentId agentName : string)
    (strategy : DeploymentStrategy) : M DeploymentResult :=
  try_catch
    ((* Build Docker image *)
     Logger.info ("Building Docker image for " +:+ agentName +:+ "...")
       None;;
     docker_call;;
     (* Create and start container *)
     Logger.info ("Creating Docker container for " +:+ agentName +:+ "...")
       None;;
     container ← createContainer (containerOptions agentName strategy);
     container_start container;;
     container_inspect container;;
     mret {| success := true; deployment_id := Some agentId;
             process_id := None; container_id := Some container;
             error_message := None |})
    (fun error => mret (failure error)).

Definition deployAgent (agentId agentName : string)
    (strategy : DeploymentStrategy) : M DeploymentResult :=
  Logger.deployment
    ("Starting deployment: " +:+ agentName +:+ " to "
       +:+ DeploymentTarget_str (target strategy)) agentId;;
  try_catch
    (res ← match target strategy with
           | LOCAL => deployLocal agentId agentName strategy
           | DOCKER => deployDocker agentId agentName strategy
           | t => throw (newError ("Unsupported deployment target: "
                                     +:+ DeploymentTarget_str t))
           end;
     (if success res then
        (* Store deployment metadata *)
        t ← Date_now;
        modify (set_deployments (insert agentId
          {| d_agentId := agentId; d_agentName := agentName;
             d_target := target strategy;
             d_processId := process_id res;
             d_containerId := container_id res;
             deployedAt := t; d_status := running |}));;
        Logger.deployment ("Deployment successful: " +:+ agentName) agentId
      else
        Logger.error
          ("Deployment failed: " +:+ default "undefined" (error_message res))
          None (Some agentId));;
     mret res)
    (fun error =>
       Logger.error "Deployment error" (Some error) (Some agentId);;
       mret (failure error)).

Definition with_d_status (s : DeploymentStatus) (d : DeploymentMetadata)
  : DeploymentMetadata :=
  mkDeployment (d_agentId d) (d_agentName d) (d_target d) (d_processId d)
               (d_containerId d) (deployedAt d) s.

Definition stopAgent (agentId : string) : M bool :=
  deployment ← gets (fun w => deployments w !! agentId);
  match deployment with
  | None =>
      Logger.warning ("No deployment found for agent: " +:+ agentId) None;;
      mret false
  | Some deployment =>
      try_catch
        (match d_target deployment with
         | LOCAL =>
             (* Stop local process *)
             process ← gets (fun w => processes w !! agentId);
             match process with
             | Some p =>
                 k ← gets (fun w => proc_killed w p);
                 if negb k then
                   kill p;;
                   modify (set_processes (delete agentId))
                 else mret tt
             | None => mret tt
             end
         | DOCKER =>
             (* Stop Docker container *)
             match truthy (d_containerId deployment) with
             | Some cid => container_stop cid
             | None => mret tt
             end
         | _ => mret tt
         end;;
         modify (set_deployments (alter (with_d_status stopped) agentId));;
         Logger.deployment ("Agent stopped: " +:+ d_agentName deployment)
           agentId;;
         mret true)
        (fun error =>
           Logger.error "Failed to stop agent" (Some error) (Some agentId);;
           mret false)
  end.

Definition startAgent (agentId : string) : M bool :=
  deployment ← gets (fun w => deployments w !! agentId);
  match deployment with
  | None =>
      Logger.warning ("No deployment found for agent: " +:+ agentId) None;;
      mret false
  | Some deployment =>
      try_catch
        ((if bool_decide (d_target deployment = DOCKER) then
            (* Start Docker container *)
            match truthy (d_containerId deployment) with
            | Some cid => container_start cid
            | None => mret tt
            end
          else
            (* For local deployment, need to redeploy *)
            agent ← MemoryEngine.getAgent agentId;
            match agent with
            | None => throw (newError "Agent not found")
            | Some agent =>
                (* Get deployment strategy from plan *)
                plan ← MemoryEngine.getPlan agentId;
                match plan with
                | None => throw (newError "Deployment plan not found")
                | Some strategy =>
                    deployLocal agentId (name agent) strategy;;
                    mret tt
                end
            end);;
         modify (set_deployments (alter (with_d_status running) agentId));;
         Logger.deployment ("Agent started: " +:+ d_agentName deployment)
           agentId;;
         mret true)
        (fun error =>
           Logger.error "Failed to start agent" (Some error) (Some agentId);;
           mret false)
  end.

Definition restartAgent (agentId : string) : M bool :=
  stopAgent agentId;;
  sleep 2000;;
  startAgent agentId.

Definition getDeploymentStatus (agentId : string)
  : M (option DeploymentMetadata) :=
  gets (fun w => deployments w !! agentId).

Definition isAgentRunning (agentId : string) : M bool :=
  deployment ← gets (fun w => deployments w !! agentId);
  match deployment with
  | None => mret false
  | Some deployment =>
      try_catch
        (match d_target deployment with
         | LOCAL =>
             process ← gets (fun w => processes w !! agentId);
             match process with
             | Some p => k ← gets (fun w => proc_killed w p); mret (negb k)
             | None => mret false
             end
         | DOCKER =>
             match truthy (d_containerId deployment) with
             | None => mret false
             | Some cid => container_inspect cid
             end
         | _ => mret false
         end)
        (fun error =>
           Logger.error "Failed to check agent status" (Some error)
             (Some agentId);;
           mret false)
  end.

End DeploymentEngine.

(* ===================================================================== *)
(** * engines/monitor.engine.ts *)
(* ===================================================================== *)

Module MonitorEngine.

(** [array.slice(-n)]: the last [n] elements. *)
Definition slice_last {A} (n : nat) (l : list A) : list A :=
  drop (length l - n) l.

Definition is_unhealthy (h : HealthStatus) : bool :=
  bool_decide (h_status h = unhealthy).

(** [healthHistory.slice(-5).filter(h => h.status === "unhealthy").length] *)
Definition recentUnhealthy (history : list HealthStatus) : nat :=
  length (List.filter is_unhealthy (slice_last 5 history)).

Definition with_history (f : list HealthStatus -> list HealthStatus)
    (s : MonitoringSession) : MonitoringSession :=
  mkSession (s_agentId s) (s_agentName s) (s_strategy s) (startedAt s)
            (f (healthHistory s)).

(** [history.push(h); if (history.length > 100) history.shift()] *)
Definition push_capped (h : HealthStatus) (history : list HealthStatus)
  : list HealthStatus :=
  let history' := (history ++ [h])%list in
  if (100 <? length history')%nat then tail history' else history'.

Definition handleUnhealthy (agentId agentName reason : string)
    (strategy : MonitoringStrategy) : M unit :=
  Logger.monitoring ("Agent unhealthy: " +:+ reason) agentId;;
  (* Send alert *)
  Telegram.sendAlert agentName "Agent Unhealthy" ("Reason: " +:+ reason);;
  (* Check if we should attempt automatic recovery *)
  session ← gets (fun w => sessions w !! agentId);
  match session with
  | None => mret tt
  | Some session =>
      (* Count recent unhealthy checks *)
      let recent := recentUnhealthy (healthHistory session) in
      if (3 <=? recent)%nat then
        Logger.monitoring
          ("Attempting automatic restart after " +:+ pretty recent
             +:+ " unhealthy checks") agentId;;
        try_catch
          (modify (set_calls (fun c => (c ++ [AutoRestart agentId])%list));;
           restarted ← DeploymentEngine.restartAgent agentId;
           if (restarted : bool) then
             Telegram.sendStatusUpdate agentName "Restarted"
               (Some "Agent was automatically restarted due to health issues")
           else
             Telegram.sendError agentName
               "Failed to restart agent automatically" None)
          (fun error =>
             Logger.error "Failed to restart unhealthy agent" (Some error)
               (Some agentId))
      else mret tt
  end.

Definition handleAlert (agentId agentName metric_ : string)
    (value threshold_ : Z) (action_ : AlertAction) : M unit :=
  let msg := "Alert: " +:+ metric_ +:+ " is " +:+ pretty value
               +:+ " (threshold: " +:+ pretty threshold_ +:+ ")" in
  Logger.monitoring msg agentId;;
  (* Send Telegram alert *)
  Telegram.sendAlert agentName "Monitoring Alert" msg;;
  (* Perform action *)
  match action_ with
  | ARestart =>
      Logger.monitoring "Attempting to restart agent due to alert" agentId;;
      DeploymentEngine.restartAgent agentId;;
      mret tt
  | APause =>
      Logger.monitoring "Pausing agent due to alert" agentId;;
      DeploymentEngine.stopAgent agentId;;
      mret tt
  | AEscalate =>
      Telegram.sendAlert agentName "CRITICAL ALERT - Escalation Required" msg
  | ANotify => mret tt
  end.

Definition compare_metric (c : Comparison) (metricValue threshold_ : Z)
  : bool :=
  match c with
  | CGt => threshold_ <? metricValue
  | CLt => metricValue <? threshold_
  | CGe => threshold_ <=? metricValue
  | CLe => metricValue <=? threshold_
  | CEq => metricValue =? threshold_
  | CNe => negb (metricValue =? threshold_)
  end.

Fixpoint checkAlertConditions_loop (agentId agentName : string)
    (healthStatus : HealthStatus) (conditions : list AlertCondition)
  : M unit :=
  match conditions with
  | [] => mret tt
  | condition :: rest =>
      match metrics healthStatus !! metric condition with
      | None => mret tt
      | Some metricValue =>
          if compare_metric (comparison condition) metricValue
               (threshold condition)
          then handleAlert agentId agentName (metric condition) metricValue
                 (threshold condition) (action condition)
          else mret tt
      end;;
      checkAlertConditions_loop agentId agentName healthStatus rest
  end.

Definition checkAlertConditions (agentId agentName : string)
    (healthStatus : HealthStatus) (strategy : MonitoringStrategy)
  : M unit :=
  checkAlertConditions_loop agentId agentName healthStatus
    (alert_conditions strategy).

(** [issues.join(", ")] *)
Fixpoint join (sep : string) (l : list string) : string :=
  match l with
  | [] => ""
  | [x] => x
  | x :: rest => x +:+ sep +:+ join sep rest
  end.

(** One monitoring tick. *)
Definition performHealthCheck (cfg : Config) (agentId agentName : string)
    (strategy : MonitoringStrategy) : M unit :=
  try_catch
    (session ← gets (fun w => sessions w !! agentId);
     match session with
     | None => mret tt
     | Some _ =>
         deployment ← DeploymentEngine.getDeploymentStatus agentId;
         match deployment with
         | None =>
             handleUnhealthy agentId agentName "No deployment found"
               strategy
         | Some deployment =>
             (* Check if agent is running *)
             isRunning ← DeploymentEngine.isAgentRunning agentId;
             (* Get error count from logs *)
             recentErrors ←
               MemoryEngine.getRecentErrors (Some agentId) 10;
             let errorCount := Z.of_nat (length recentErrors) in
             (* Calculate uptime *)
             t ← Date_now;
             let uptime := t - deployedAt deployment in
             let healthMetrics : gmap string Z :=
               {[ "error_count" := errorCount ]} in
             (* Determine health status *)
             let '(st, issues_) :=
               if negb isRunning then
                 (unhealthy, ["Agent is not running"])
               else if alertErrorThreshold cfg <? errorCount then
                 (degraded, ["High error count: " +:+ pretty errorCount])
               else (healthy, []) in
             let healthStatus :=
               {| h_agent_id := agentId; h_agent_name := agentName;
                  h_status := st; uptime_ms := uptime;
                  metrics := healthMetrics; issues := issues_ |} in
             (* Store health status; keep only last 100 health checks *)
             modify (set_sessions
               (alter (with_history (push_capped healthStatus)) agentId));;
             (* Log health status *)
             Logger.monitoring ("Health check: " +:+ HealthKind_str st)
               agentId;;
             (* Check alert conditions *)
             checkAlertConditions agentId agentName healthStatus strategy;;
             (* Handle unhealthy status *)
             if bool_decide (st = unhealthy) then
               handleUnhealthy agentId agentName (join ", " issues_)
                 strategy
             else mret tt
         end
     end)
    (fun error =>
       Logger.error "Health check failed" (Some error) (Some agentId)).

Definition stopMonitoring (agentId : string) : M unit :=
  session ← gets (fun w => sessions w !! agentId);
  match session with
  | Some session =>
      modify (set_sessions (delete agentId));;
      Logger.monitoring
        ("Stopped monitoring for " +:+ s_agentName session) agentId
  | None => mret tt
  end.

(** The interval timer is the environment's: each of its ticks is one
    call of [performHealthCheck]. *)
Definition startMonitoring (cfg : Config) (agentId agentName : string)
    (strategy : MonitoringStrategy) : M unit :=
  (* Stop existing monitoring session if any *)
  stopMonitoring agentId;;
  Logger.monitoring ("Starting monitoring for " +:+ agentName) agentId;;
  t ← Date_now;
  modify (set_sessions (insert agentId
    {| s_agentId := agentId; s_agentName := agentName;
       s_strategy := strategy; startedAt := t; healthHistory := [] |}));;
  (* Perform initial health check *)
  performHealthCheck cfg agentId agentName strategy.

End MonitorEngine.

(* ===================================================================== *)
(** * engines/recovery.engine.ts *)
(* ===================================================================== *)

Module RecoveryEngine.

Definition attemptKey (agentId failureType : string) : string :=
  agentId +:+ ":" +:+ failureType.

(** [this.recoveryAttempts.get(attemptKey) || 0] *)
Definition getRecoveryAttempts (agentId failureType : string) (w : World)
  : nat :=
  default 0%nat (recoveryAttempts w !! attemptKey agentId failureType).

Definition recoverGenerationFailure (agentId agentName : string)
    (error : Error) : M bool :=
  Logger.info "Attempting to recover from generation failure"
    (Some agentId);;
  (* Transition back to GENERATING state for retry *)
  StateManager.transitionState agentId GENERATING
    (Some "Retrying generation after failure").

(** [context] holds [context.validationResult.errors] when present. *)
Definition recoverValidationFailure (agentId agentName : string)
    (error : Error) (context : option (list string)) : M bool :=
  Logger.info "Attempting to recover from validation failure"
    (Some agentId);;
  match context with
  | Some errors =>
      StateManager.transitionState agentId GENERATING
        (Some ("Regenerating after validation failures: "
                 +:+ pretty (length errors) +:+ " errors"))
  | None => mret false
  end.

Definition recoverDeploymentFailure (agentId agentName : string)
    (error : Error) : M bool :=
  Logger.info "Attempting to recover from deployment failure"
    (Some agentId);;
  (* Stop any running deployment *)
  try_catch (DeploymentEngine.stopAgent agentId;; mret tt)
            (fun _ => mret tt);;
  (* Wait a bit before retry *)
  sleep 5000;;
  (* Transition back to DEPLOYING state for retry *)
  StateManager.transitionState agentId DEPLOYING
    (Some "Retrying deployment after failure").

Definition recoverRuntimeCrash (agentId agentName : string) (error : Error)
  : M bool :=
  Logger.info "Attempting to recover from runtime crash" (Some agentId);;
  (* Attempt to restart the agent *)
  try_catch
    (restarted ← DeploymentEngine.restartAgent agentId;
     if (restarted : bool) then
       Logger.info "Agent restarted successfully" (Some agentId);;
       mret true
     else
       Logger.error "Failed to restart agent" None (Some agentId);;
       mret false)
    (fun restartError =>
       Logger.error "Error during restart" (Some restartError)
         (Some agentId);;
       mret false).

Definition recoverGenericFailure (agentId agentName failureType : string)
    (error : Error) : M bool :=
  Logger.info ("Attempting generic recovery for " +:+ failureType)
    (Some agentId);;
  (* Get current state *)
  currentState ← StateManager.getCurrentState agentId;
  match currentState with
  | None => mret false
  | Some _ =>
      (* Default recovery: transition to FAILED state and notify admin *)
      StateManager.transitionToFailed agentId
        ("Unrecoverable failure: " +:+ failureType) (Some error);;
      mret false
  end.

(** The [switch (failureType)] statement of [recover]. *)
Definition dispatch (agentId agentName failureType : string) (error : Error)
    (context : option (list string)) : M bool :=
  if bool_decide (failureType = "generation_failure") then
    recoverGenerationFailure agentId agentName error
  else if bool_decide (failureType = "validation_failure") then
    recoverValidationFailure agentId agentName error context
  else if bool_decide (failureType = "deployment_failure") then
    recoverDeploymentFailure agentId agentName error
  else if bool_decide (failureType = "runtime_crash") then
    recoverRuntimeCrash agentId agentName error
  else
    recoverGenericFailure agentId agentName failureType error.

Definition recover (cfg : Config) (agentId failureType : string)
    (error : Error) (context : option (list string)) : M bool :=
  agent ← MemoryEngine.getAgent agentId;
  match agent with
  | None =>
      Logger.error "Cannot recover: Agent not found" None (Some agentId);;
      mret false
  | Some agent =>
      Logger.error ("Recovery initiated for " +:+ failureType) (Some error)
        (Some agentId);;
      (* Get recovery attempt count *)
      let attemptKey := attemptKey agentId failureType in
      attempts ← gets (getRecoveryAttempts agentId failureType);
      (* Check if max retries exceeded *)
      if (maxRetryAttempts cfg <=? attempts)%nat then
        Logger.error
          ("Max recovery attempts (" +:+ pretty (maxRetryAttempts cfg)
             +:+ ") exceeded for " +:+ failureType) None (Some agentId);;
        Telegram.sendError (name agent)
          ("Recovery failed after " +:+ pretty attempts +:+ " attempts: "
             +:+ failureType) (stack error);;
        (* Mark as failed *)
        StateManager.transitionToFailed agentId
          ("Recovery failed: " +:+ failureType) (Some error);;
        mret false
      else
        (* Increment attempt counter *)
        modify (set_recoveryAttempts
                  (insert attemptKey (attempts + 1)%nat));;
        (* Choose recovery strategy based on failure type *)
        try_catch
          (modify (set_calls
             (fun c => (c ++ [Dispatch agentId failureType])%list));;
           success_ ←
             dispatch agentId (name agent) failureType error context;
           (* Log recovery action *)
           MemoryEngine.log LT_INFO
             (if (success_ : bool) then LL_INFO else LL_ERROR)
             ("Recovery "
                +:+ (if (success_ : bool) then "succeeded" else "failed")
                +:+ " for " +:+ failureType) (Some agentId);;
           (if (success_ : bool) then
              (* Reset attempt counter on success *)
              modify (set_recoveryAttempts (delete attemptKey));;
              Telegram.sendSuccess (name agent)
                ("Recovery successful for " +:+ failureType)
            else
              Telegram.sendAlert (name agent) "Recovery Attempt Failed"
                ("Failed to recover from " +:+ failureType +:+ ". Attempt "
                   +:+ pretty (attempts + 1)%nat +:+ "/"
                   +:+ pretty (maxRetryAttempts cfg)));;
           mret success_)
          (fun recoveryError =>
             Logger.error "Recovery process error" (Some recoveryError)
               (Some agentId);;
             mret false)
  end.

Definition resetRecoveryAttempts (agentId : string)
    (failureType : option string) : M unit :=
  match truthy failureType with
  | Some ft => modify (set_recoveryAttempts (delete (attemptKey agentId ft)))
  | None =>
      (* Reset all attempts for this agent *)
      modify (set_recoveryAttempts
        (filter (fun kv => negb (String.prefix (agentId +:+ ":") (fst kv))
                           = true)))
  end.

End RecoveryEngine.

(* ===================================================================== *)
(** * Vocabulary of the statements *)
(* ===================================================================== *)

(** The world as the [k]-th poll of [waitForApproval] finds it: [k] poll
    intervals have passed and the other tasks' due events have run. *)
Fixpoint afterPolls (k : nat) (w : World) : World :=
  match k with
  | O => w
  | S k' => afterPolls k' (exec (sleep ApprovalEngine.pollIntervalMs) w)
  end.

(** The status the [k]-th poll reads. *)
Definition observed (approvalId : string) (k : nat) (w : World)
  : option ApprovalStatus :=
  ap_status <$> approvals (afterPolls k w) !! approvalId.

(** The status of the record once [ms] milliseconds have elapsed. *)
Definition statusAfter (approvalId : string) (ms : Z) (w : World)
  : option ApprovalStatus :=
  ap_status <$> approvals (exec (sleep ms) w) !! approvalId.

(** The restarts requested by [handleUnhealthy], as it finds the session. *)
Definition autoRestartOf (agentId : string) (history : list HealthStatus)
  : list Call :=
  if (3 <=? MonitorEngine.recentUnhealthy history)%nat
  then [AutoRestart agentId] else [].


(** The log line [transitionToFailed] writes for a reason. *)
Definition failedLogLine (reason : string) : string :=
  "Agent transitioned to FAILED state: " +:+ reason.




(** ** Shapes of computations *)

(** A computation leaves a component of the world unchanged, whatever it
    returns. *)
Definition Frame {A B} (f : World -> B) (m : M A) : Prop :=
  forall w, f (snd (m w)) = f w.

(** The scheduled events touch the approvals table and the process
    objects only. *)
Definition event_free {B} (f : World -> B) : Prop :=
  (forall g w, f (set_approvals g w) = f w) /\
  (forall g w, f (set_procs g w) = f w) /\
  (forall g w, f (set_now g w) = f w) /\
  (forall g w, f (set_events g w) = f w).

(** A computation that returns a value, and one that at least is not cut
    off (it returns or throws). *)
Definition Returns {A} (m : M A) : Prop :=
  forall w, exists a, fst (m w) = Ret a.

Definition Settles {A} (m : M A) : Prop :=
  forall w, fst (m w) <> Cut.

(** ** Scenarios *)

Definition someApproval (st : ApprovalStatus) : Approval :=
  mkApproval "ap-1" "a1" DEPLOYMENT st None None false.

(** "echo-bot" is known; approval "ap-1" is recorded with status [st]. *)
Definition approvalWorld (st : ApprovalStatus) : World :=
  set_approvals (insert "ap-1" (someApproval st))
    (worldWith (someAgent WAITING_APPROVAL)).

(** The admin approves "ap-1" seven seconds from now. *)
Definition lateApprovalWorld : World :=
  set_events (fun _ => [(7000, EvApprovalResponse "ap-1" APPROVED "admin")])
    (approvalWorld PENDING).

Definition localStrategy : DeploymentStrategy :=
  {| target := LOCAL; environment_variables := []; resource_limits := None |}.

(** The process about to be spawned ends one second after its start. *)
Definition crashingWorld : World :=
  set_events (fun _ => [(1000, EvProcessExit 1000 1)])
    (worldWith (someAgent DEPLOYING)).



Definition check (st : HealthKind) : HealthStatus :=
  {| h_agent_id := "a1"; h_agent_name := "echo-bot"; h_status := st;
     uptime_ms := 0; metrics := {[ "error_count" := 0 ]}; issues := [] |}.

Definition noAlerts : MonitoringStrategy :=
  {| health_check_interval_ms := 60000; alert_conditions := [] |}.

Definition restartOnError : MonitoringStrategy :=
  {| health_check_interval_ms := 60000;
     alert_conditions := [mkAlert "error_count" 0 CGe ARestart] |}.

(** "echo-bot" runs as local process 1000 and is monitored; its session
    holds [history]; [alive] tells whether the engine still has the
    process handle. *)
Definition monitoredWorld (history : list HealthStatus) (alive : bool)
  : World :=
  set_sessions (insert "a1"
      (mkSession "a1" "echo-bot" noAlerts 0 history))
    (set_deployments (insert "a1"
        (mkDeployment "a1" "echo-bot" LOCAL (Some 1000) None 0 running))
      (set_processes (if alive then insert "a1" 1000 else fun m => m)
        (set_procs (insert 1000 (mkProc 1000 false None))
          (set_plans (insert "a1" localStrategy)
            (worldWith (someAgent ACTIVE)))))).

Definition boom : Error := newError "generation crashed".

(** "echo-bot" is in GENERATING and [n] recoveries from
    [generation_failure] have been counted. *)
Definition retriedWorld (n : nat) : World :=
  set_recoveryAttempts (insert "a1:generation_failure" n)
    (worldWith (someAgent GENERATING)).

(* ===================================================================== *)
(** * Reasoning support *)
(* ===================================================================== *)

Ltac unfold_monad :=
  unfold try_catch, mbind, M_bind, mret, M_ret, gets, modify, throw, cut,
    exec, result in *.

(** ** Frame conditions *)

Section FrameRules.
Context {B : Type} (f : World -> B).

Lemma frame_ret {A} (a : A) : Frame f (mret a).
Proof. intros w. reflexivity. Qed.

Lemma frame_throw {A} e : Frame f (@throw A e).
Proof. intros w. reflexivity. Qed.

Lemma frame_cut {A} : Frame f (@cut A).
Proof. intros w. reflexivity. Qed.

Lemma frame_gets {A} (g : World -> A) : Frame f (gets g).
Proof. intros w. reflexivity. Qed.

Lemma frame_modify (g : World -> World) :
  (forall w, f (g w) = f w) -> Frame f (modify g).
Proof. intros H w. apply H. Qed.

Lemma frame_bind {A C} (m : M A) (k : A -> M C) :
  Frame f m -> (forall a, Frame f (k a)) -> Frame f (m ≫= k).
Proof.
  intros Hm Hk w. unfold mbind, M_bind.
  specialize (Hm w). destruct (m w) as [[a|e|] w']; simpl in *; trivial.
  rewrite Hk. exact Hm.
Qed.

Lemma frame_try_catch {A} (m : M A) (h : Error -> M A) :
  Frame f m -> (forall e, Frame f (h e)) -> Frame f (try_catch m h).
Proof.
  intros Hm Hh w. unfold try_catch.
  specialize (Hm w). destruct (m w) as [[a|e|] w']; simpl in *; trivial.
  rewrite Hh. exact Hm.
Qed.
End FrameRules.


Lemma apply_event_frame {B} (f : World -> B) e w :
  event_free f -> f (apply_event e w) = f w.
Proof.
  intros (Ha & Hp & _ & _). destruct e; simpl.
  - unfold MemoryEngine.updateApprovalStatus. unfold_monad. simpl. apply Ha.
  - apply Hp.
  - apply Hp.
Qed.

Lemma run_due_frame {B} (f : World -> B) t evs w :
  event_free f -> f (snd (run_due t evs w)) = f w.
Proof.
  intros Hf. revert w. induction evs as [|[te e] rest IH]; intros w; simpl.
  - reflexivity.
  - destruct (te <=? t).
    + rewrite IH. by apply apply_event_frame.
    + specialize (IH w). destruct (run_due t rest w). simpl in *. exact IH.
Qed.

Lemma frame_sleep {B} (f : World -> B) ms :
  event_free f -> Frame f (sleep ms).
Proof.
  intros Hf w. unfold sleep.
  pose proof (run_due_frame f (now w + ms) (events w) w Hf) as H.
  destruct (run_due (now w + ms) (events w) w) as [keep w']. simpl in *.
  destruct Hf as (_ & _ & Hn & He). rewrite He, Hn. exact H.
Qed.


Ltac head_of t :=
  match t with
  | ?g _ => head_of g
  | _ => t
  end.

(** One step of a frame proof: split the monadic structure, case on the
    scrutinee of a [match] or [if], use a frame lemma already proved, or
    else unfold the method being called. *)
Ltac frame_step :=
  match goal with
  | |- forall _, _ => intro
  | |- Frame _ (mret _) => apply frame_ret
  | |- Frame _ (throw _) => apply frame_throw
  | |- Frame _ cut => apply frame_cut
  | |- Frame _ (gets _) => apply frame_gets
  | |- Frame _ (modify _) => apply frame_modify; intro; reflexivity
  | |- Frame _ (sleep _) => apply frame_sleep; repeat split
  | |- Frame _ (_ ≫= _) => apply frame_bind
  | |- Frame _ (try_catch _ _) => apply frame_try_catch
  | |- Frame _ (match ?x with _ => _ end) => destruct x
  | |- Frame _ (DeploymentEngine.execSync _) =>
      intros ?w; unfold DeploymentEngine.execSync;
      destruct (exec_outcomes _) as [|[?|] ?]; reflexivity
  | |- Frame _ DeploymentEngine.docker_call =>
      intros ?w; unfold DeploymentEngine.docker_call;
      destruct (docker_outcomes _) as [|[?|] ?]; reflexivity
  | |- Frame _ DeploymentEngine.spawn => intros ?w; reflexivity
  | |- Frame _ ?m => let h := head_of m in unfold h
  end.

Ltac frame := repeat frame_step.

Lemma restartAgent_calls agentId :
  Frame calls (DeploymentEngine.restartAgent agentId).
Proof. frame. Qed.

Lemma restartAgent_sessions agentId :
  Frame sessions (DeploymentEngine.restartAgent agentId).
Proof. frame. Qed.

(** ** Termination shape *)

Lemma returns_settles {A} (m : M A) : Returns m -> Settles m.
Proof. intros H w. destruct (H w) as [a Ha]. rewrite Ha. discriminate. Qed.

Lemma returns_ret {A} (a : A) : Returns (mret a).
Proof. intros w. by exists a. Qed.

Lemma returns_gets {A} (g : World -> A) : Returns (gets g).
Proof. intros w. by eexists. Qed.

Lemma returns_modify g : Returns (modify g).
Proof. intros w. by exists tt. Qed.

Lemma returns_sleep ms : Returns (sleep ms).
Proof.
  intros w. exists tt. unfold sleep.
  by destruct (run_due (now w + ms) (events w) w).
Qed.

Lemma returns_bind {A C} (m : M A) (k : A -> M C) :
  Returns m -> (forall a, Returns (k a)) -> Returns (m ≫= k).
Proof.
  intros Hm Hk w. unfold mbind, M_bind.
  destruct (Hm w) as [a Ha]. destruct (m w) as [o w']. simpl in Ha. subst o.
  apply Hk.
Qed.

Lemma returns_try_catch {A} (m : M A) (h : Error -> M A) :
  Settles m -> (forall e, Returns (h e)) -> Returns (try_catch m h).
Proof.
  intros Hm Hh w. unfold try_catch. specialize (Hm w).
  destruct (m w) as [[a|e|] w']; simpl in *.
  - by exists a.
  - apply Hh.
  - done.
Qed.

Lemma settles_throw {A} e : Settles (@throw A e).
Proof. intros w. discriminate. Qed.

Lemma settles_bind {A C} (m : M A) (k : A -> M C) :
  Settles m -> (forall a, Settles (k a)) -> Settles (m ≫= k).
Proof.
  intros Hm Hk w. unfold mbind, M_bind. specialize (Hm w).
  destruct (m w) as [[a|e|] w']; simpl in *; try done. apply Hk.
Qed.

Lemma settles_try_catch {A} (m : M A) (h : Error -> M A) :
  Settles m -> (forall e, Settles (h e)) -> Settles (try_catch m h).
Proof.
  intros Hm Hh w. unfold try_catch. specialize (Hm w).
  destruct (m w) as [[a|e|] w']; simpl in *; try done. apply Hh.
Qed.

Lemma settles_execSync cmd : Settles (DeploymentEngine.execSync cmd).
Proof.
  intros w. unfold DeploymentEngine.execSync.
  by destruct (exec_outcomes w) as [|[?|] ?].
Qed.

Lemma settles_docker_call : Settles DeploymentEngine.docker_call.
Proof.
  intros w. unfold DeploymentEngine.docker_call.
  by destruct (docker_outcomes w) as [|[?|] ?].
Qed.

Lemma returns_spawn : Returns DeploymentEngine.spawn.
Proof. intros w. by eexists. Qed.

Ltac shape_step :=
  match goal with
  | |- forall _, _ => intro
  | |- Returns (mret _) => apply returns_ret
  | |- Returns (gets _) => apply returns_gets
  | |- Returns (modify _) => apply returns_modify
  | |- Returns (sleep _) => apply returns_sleep
  | |- Returns DeploymentEngine.spawn => apply returns_spawn
  | |- Returns (_ ≫= _) => apply returns_bind
  | |- Returns (try_catch _ _) => apply returns_try_catch
  | |- Returns (match ?x with _ => _ end) => destruct x
  | |- Settles (throw _) => apply settles_throw
  | |- Settles (DeploymentEngine.execSync _) => apply settles_execSync
  | |- Settles DeploymentEngine.docker_call => apply settles_docker_call
  | |- Settles (_ ≫= _) => apply settles_bind
  | |- Settles (try_catch _ _) => apply settles_try_catch
  | |- Settles (match ?x with _ => _ end) => destruct x
  | |- Settles (mret _) => apply returns_settles
  | |- Settles (gets _) => apply returns_settles
  | |- Settles (modify _) => apply returns_settles
  | |- Settles (sleep _) => apply returns_settles
  | |- Settles DeploymentEngine.spawn => apply returns_settles
  | |- Returns ?m => let h := head_of m in unfold h
  | |- Settles ?m => let h := head_of m in unfold h
  end.

Ltac shape := repeat shape_step.

Lemma restartAgent_returns agentId :
  Returns (DeploymentEngine.restartAgent agentId).
Proof. shape. Qed.

Lemma isAgentRunning_returns agentId :
  Returns (DeploymentEngine.isAgentRunning agentId).
Proof. shape. Qed.


(** ** Stepping through a method *)

(** Running a call whose shape and frames are known. *)
Lemma call_returns {A} (m : M A) w :
  Returns m -> exists a w', m w = (Ret a, w').
Proof.
  intros H. destruct (H w) as [a Ha]. destruct (m w) as [o w'].
  simpl in Ha. subst. eauto.
Qed.

Lemma frame_at {A B} (f : World -> B) (m : M A) w o w' :
  Frame f m -> m w = (o, w') -> f w' = f w.
Proof. intros H E. specialize (H w). by rewrite E in H. Qed.

Lemma bind_run {A C} (m : M A) (k : A -> M C) w a w1 :
  m w = (Ret a, w1) -> (m ≫= k) w = k a w1.
Proof. intros E. unfold mbind, M_bind. by rewrite E. Qed.

Lemma bind_gets {A C} (g : World -> A) (k : A -> M C) w :
  (gets g ≫= k) w = k (g w) w.
Proof. reflexivity. Qed.

Lemma bind_modify {C} g (k : unit -> M C) w :
  (modify g ≫= k) w = k tt (g w).
Proof. reflexivity. Qed.

Lemma try_catch_run {A} (m : M A) h w a w1 :
  m w = (Ret a, w1) -> try_catch m h w = (Ret a, w1).
Proof. intros E. unfold try_catch. by rewrite E. Qed.

Lemma persistLog_run ty lv msg a w :
  Logger.persistLog ty lv msg a w
  = (Ret tt, set_logs (cons (mkLog (truthy a) ty lv msg)) w).
Proof. reflexivity. Qed.

Lemma send_run n w :
  Telegram.send n w = (Ret tt, set_outbox (fun o => (o ++ [n])%list) w).
Proof. reflexivity. Qed.


(* ===================================================================== *)
(** * StateManager *)
(* ===================================================================== *)

Lemma transitionState_unknown w agentId to reason :
  agents w !! agentId = None ->
  result (StateManager.transitionState agentId to reason) w = Ret false /\
  agents (exec (StateManager.transitionState agentId to reason) w) = agents w.
Proof.
  intros H. unfold exec, result, StateManager.transitionState, try_catch,
    MemoryEngine.getAgent.
  rewrite bind_gets, H. done.
Qed.

Lemma transitionState_known w agentId a to reason :
  agents w !! agentId = Some a ->
  result (StateManager.transitionState agentId to reason) w
    = Ret (StateManager.isValidTransition (status a) to) /\
  agents (exec (StateManager.transitionState agentId to reason) w)
    = if StateManager.isValidTransition (status a) to
      then alter (MemoryEngine.with_status to) agentId (agents w)
      else agents w.
Proof.
  intros H. unfold exec, result, StateManager.transitionState, try_catch,
    MemoryEngine.getAgent.
  rewrite bind_gets, H.
  destruct (StateManager.isValidTransition (status a) to); done.
Qed.

Lemma transitionToFailed_run agentId reason error w a :
  agents w !! agentId = Some a ->
  StateManager.transitionToFailed agentId reason error w
  = (Ret tt,
     set_logs (cons (mkLog (truthy (Some agentId)) LT_ERROR LL_ERROR
                       ("Agent transitioned to FAILED state: " +:+ reason)))
       (set_agents (alter (MemoryEngine.with_status FAILED) agentId) w)).
Proof.
  intros H. unfold StateManager.transitionToFailed, MemoryEngine.getAgent.
  rewrite bind_gets, H. reflexivity.
Qed.

(** [transitionState] answers by the table: it returns [true] exactly for
    a known agent and an edge of [VALID_TRANSITIONS], and a refusal leaves
    every agent as it was. *)
Lemma transitionState_by_table w agentId to reason :
  exists b,
    result (StateManager.transitionState agentId to reason) w = Ret b /\
    (b = true <->
     exists a, agents w !! agentId = Some a /\
               to ∈ StateManager.VALID_TRANSITIONS (status a)) /\
    (b = false ->
     agents (exec (StateManager.transitionState agentId to reason) w)
     = agents w).
Proof.
  destruct (agents w !! agentId) as [a|] eqn:Ha.
  - destruct (transitionState_known w agentId a to reason Ha) as [Hr Hw].
    exists (StateManager.isValidTransition (status a) to).
    split; [exact Hr|]. split.
    + unfold StateManager.isValidTransition, includes.
      rewrite bool_decide_eq_true. split; [eauto|].
      intros (a' & [= <-] & H). exact H.
    + intros Hb. by rewrite Hw, Hb.
  - destruct (transitionState_unknown w agentId to reason Ha) as [Hr Hw].
    exists false. split; [exact Hr|]. split; [|done].
    split; [done|]. by intros (a & ? & _).
Qed.

(** C1 (the code departs from the specification): an agent waiting for
    approval cannot be moved to DELETED.  For every world in which the
    agent's state is WAITING_APPROVAL, [transitionState] towards DELETED
    returns [false] and the agent stays in WAITING_APPROVAL, because the
    WAITING_APPROVAL entry of [VALID_TRANSITIONS] lists GENERATING,
    PLANNING_DETAILED and FAILED only. *)
Theorem C1_waiting_approval_to_deleted_rejected w agentId a reason :
  agents w !! agentId = Some a ->
  status a = WAITING_APPROVAL ->
  result (StateManager.transitionState agentId DELETED reason) w = Ret false /\
  stateOf (exec (StateManager.transitionState agentId DELETED reason) w)
    agentId = Some WAITING_APPROVAL.
Proof.
  intros Ha Hst.
  destruct (transitionState_known w agentId a DELETED reason Ha) as [Hr Hw].
  rewrite Hst in Hr, Hw.
  change (StateManager.isValidTransition WAITING_APPROVAL DELETED)
    with false in Hr, Hw.
  split; [exact Hr|].
  unfold stateOf. rewrite Hw, Ha. cbn. by rewrite Hst.
Qed.

Lemma C1_witness :
  agents (worldWith (someAgent WAITING_APPROVAL)) !! "a1"
    = Some (someAgent WAITING_APPROVAL) /\
  result (StateManager.transitionState "a1" DELETED (Some "Deleted by admin"))
    (worldWith (someAgent WAITING_APPROVAL)) = Ret false /\
  stateOf
    (exec (StateManager.transitionState "a1" DELETED (Some "Deleted by admin"))
       (worldWith (someAgent WAITING_APPROVAL)))
    "a1" = Some WAITING_APPROVAL.
Proof.
  split; [reflexivity|].
  apply (C1_waiting_approval_to_deleted_rejected
           (worldWith (someAgent WAITING_APPROVAL)) "a1"
           (someAgent WAITING_APPROVAL)); reflexivity.
Defined.

(** C5, as specified, does not hold: [transitionToFailed] moves an agent
    out of DELETED. *)
Lemma C5_counterexample :
  ~ (forall w agentId reason error,
       stateOf w agentId = Some DELETED ->
       stateOf (exec (StateManager.transitionToFailed agentId reason error) w)
         agentId = Some DELETED).
Proof.
  intros H.
  specialize (H (worldWith (someAgent DELETED)) "a1" "Workflow error" None
                eq_refl).
  vm_compute in H. discriminate H.
Qed.

(** C5 (amended): DELETED has no outgoing edge, so for every agent whose
    state is DELETED [transitionState] rejects every target state and
    changes no agent; [transitionToFailed], which is allowed from any
    state, moves the DELETED agent to FAILED. *)
Theorem C5_deleted_only_leaves_by_transitionToFailed w agentId a :
  agents w !! agentId = Some a ->
  status a = DELETED ->
  StateManager.VALID_TRANSITIONS DELETED = [] /\
  (forall to reason,
      result (StateManager.transitionState agentId to reason) w = Ret false /\
      agents (exec (StateManager.transitionState agentId to reason) w)
      = agents w) /\
  (forall reason error,
      stateOf (exec (StateManager.transitionToFailed agentId reason error) w)
        agentId = Some FAILED).
Proof.
  intros Ha Hst. split; [reflexivity|]. split.
  - intros to reason.
    destruct (transitionState_known w agentId a to reason Ha) as [Hr Hw].
    rewrite Hst in Hr, Hw.
    change (StateManager.isValidTransition DELETED to) with false in Hr, Hw.
    done.
  - intros reason error. unfold exec, stateOf.
    rewrite (transitionToFailed_run agentId reason error w a Ha).
    cbn. rewrite lookup_alter. case_decide; [|done]. by rewrite Ha.
Qed.

Lemma C5_witness :
  agents (worldWith (someAgent DELETED)) !! "a1" = Some (someAgent DELETED) /\
  result (StateManager.transitionState "a1" FAILED None)
    (worldWith (someAgent DELETED)) = Ret false /\
  stateOf
    (exec (StateManager.transitionToFailed "a1" "Workflow error" None)
       (worldWith (someAgent DELETED)))
    "a1" = Some FAILED.
Proof.
  split; [reflexivity|].
  destruct (C5_deleted_only_leaves_by_transitionToFailed
              (worldWith (someAgent DELETED)) "a1" (someAgent DELETED)
              eq_refl eq_refl) as (_ & Ht & Hf).
  split; [apply Ht|apply Hf].
Defined.

(* ===================================================================== *)
(** * ApprovalEngine: specified behaviour *)
(* ===================================================================== *)


Lemma processApproval_status w approvalId st approvedBy notes :
  approvals (exec (ApprovalEngine.processApproval approvalId st approvedBy
                     notes) w)
  = alter (MemoryEngine.resolve st (Some approvedBy) notes) approvalId
      (approvals w).
Proof.
  unfold exec, ApprovalEngine.processApproval, Logger.approval.
  rewrite (bind_run _ _ _ _ _ (persistLog_run _ _ _ _ _)).
  unfold MemoryEngine.updateApprovalStatus. rewrite bind_modify.
  unfold MemoryEngine.getApproval. rewrite bind_gets.
  destruct (approvals _ !! approvalId) as [a|]; [|reflexivity].
  destruct (bool_decide (st = APPROVED)); [reflexivity|].
  destruct (bool_decide (st = REJECTED)); reflexivity.
Qed.

(** C4 (the code departs from the specification): a resolved approval is
    not terminal.  Whatever the status of a stored approval record, pending
    or already resolved, [processApproval] replaces it by the status it is
    given: [updateApprovalStatus] updates the row by id alone. *)
Theorem C4_processApproval_overwrites_any_status
    w approvalId a st approvedBy notes :
  approvals w !! approvalId = Some a ->
  ap_status <$>
    approvals (exec (ApprovalEngine.processApproval approvalId st approvedBy
                       notes) w) !! approvalId
  = Some st.
Proof.
  intros Ha. rewrite processApproval_status, lookup_alter.
  case_decide; [|done]. by rewrite Ha.
Qed.

Lemma C4_witness :
  approvals (approvalWorld APPROVED) !! "ap-1" = Some (someApproval APPROVED)
  /\
  ap_status <$>
    approvals (exec (ApprovalEngine.processApproval "ap-1" REJECTED "bob" None)
                 (approvalWorld APPROVED)) !! "ap-1"
  = Some REJECTED.
Proof.
  split; [reflexivity|].
  apply (C4_processApproval_overwrites_any_status (approvalWorld APPROVED)
           "ap-1" (someApproval APPROVED) REJECTED "bob" None).
  reflexivity.
Defined.


(* ===================================================================== *)
(** * ApprovalEngine: waiting for a decision *)
(* ===================================================================== *)

Lemma apply_event_set_logs f e w :
  apply_event e (set_logs f w) = set_logs f (apply_event e w).
Proof. destruct e; reflexivity. Qed.

Lemma run_due_set_logs f t evs w :
  run_due t evs (set_logs f w)
  = ((run_due t evs w).1, set_logs f (run_due t evs w).2).
Proof.
  revert w. induction evs as [|[te e] rest IH]; intros w; cbn.
  - reflexivity.
  - destruct (te <=? t).
    + by rewrite apply_event_set_logs, IH.
    + rewrite IH. by destruct (run_due t rest w).
Qed.

Lemma sleep_set_logs f ms w :
  exec (sleep ms) (set_logs f w) = set_logs f (exec (sleep ms) w).
Proof.
  unfold exec, sleep. cbn [now events set_logs].
  rewrite run_due_set_logs.
  by destruct (run_due (now w + ms) (events w) w).
Qed.

Lemma afterPolls_set_logs f k w :
  afterPolls k (set_logs f w) = set_logs f (afterPolls k w).
Proof.
  revert w. induction k as [|k IH]; intros w; cbn; [done|].
  by rewrite sleep_set_logs, IH.
Qed.

Lemma now_sleep ms w : now (exec (sleep ms) w) = now w + ms.
Proof.
  unfold exec, sleep.
  by destruct (run_due (now w + ms) (events w) w).
Qed.

Lemma now_afterPolls k w :
  now (afterPolls k w) = now w + ApprovalEngine.pollIntervalMs * Z.of_nat k.
Proof.
  revert w. induction k as [|k IH]; intros w; cbn [afterPolls].
  - lia.
  - rewrite IH, now_sleep. lia.
Qed.

Lemma sleep_run ms w : sleep ms w = (Ret tt, exec (sleep ms) w).
Proof.
  unfold exec, sleep. by destruct (run_due (now w + ms) (events w) w).
Qed.

(** The polls that fit before the deadline. *)
Lemma polls_lt timeoutMs (k : nat) :
  (k < ApprovalEngine.polls timeoutMs)%nat
  <-> ApprovalEngine.pollIntervalMs * Z.of_nat k < timeoutMs.
Proof.
  unfold ApprovalEngine.polls, ApprovalEngine.pollIntervalMs.
  destruct (Z_lt_le_dec 0 timeoutMs) as [Hpos|Hneg].
  - assert (0 <= (timeoutMs + 5000 - 1) / 5000) by (apply Z.div_pos; lia).
    rewrite Nat2Z.inj_lt, Z2Nat.id by done.
    pose proof (Z.div_mod (timeoutMs + 5000 - 1) 5000 ltac:(lia)).
    pose proof (Z.mod_pos_bound (timeoutMs + 5000 - 1) 5000 ltac:(lia)).
    lia.
  - assert ((timeoutMs + 5000 - 1) / 5000 <= 0).
    { apply Z.lt_succ_r. apply Z.div_lt_upper_bound; lia. }
    rewrite Z2Nat.nonpos by done. lia.
Qed.

(** Polls that find the record pending are followed by a sleep. *)
Lemma waitLoop_skip approvalId startTime timeoutMs k :
  forall fuel w,
    (k <= fuel)%nat ->
    (forall j, (j < k)%nat -> observed approvalId j w = Some PENDING) ->
    (forall j, (j < k)%nat ->
       now w - startTime + ApprovalEngine.pollIntervalMs * Z.of_nat j
       < timeoutMs) ->
    ApprovalEngine.waitLoop fuel approvalId startTime timeoutMs w
    = ApprovalEngine.waitLoop (fuel - k) approvalId startTime timeoutMs
        (afterPolls k w).
Proof.
  induction k as [|k IH]; intros fuel w Hfuel Hobs Htime.
  - by rewrite Nat.sub_0_r.
  - destruct fuel as [|fuel]; [lia|].
    assert (H0 : observed approvalId 0 w = Some PENDING) by (apply Hobs; lia).
    unfold observed in H0. cbn [afterPolls] in H0.
    destruct (approvals w !! approvalId) as [a|] eqn:Ha; [|done].
    cbn in H0. injection H0 as Hst.
    assert (Ht : (now w - startTime <? timeoutMs) = true).
    { apply Z.ltb_lt. specialize (Htime 0%nat ltac:(lia)). lia. }
    cbn [ApprovalEngine.waitLoop]. unfold Date_now at 1.
    rewrite bind_gets, Ht. unfold MemoryEngine.getApproval.
    rewrite bind_gets, Ha, Hst. cbn [negb bool_decide decide_rel].
    rewrite bool_decide_eq_true_2 by done. cbn [negb].
    rewrite (bind_run _ _ _ _ _ (sleep_run _ _)).
    cbn [afterPolls Nat.sub]. apply IH.
    + lia.
    + intros j Hj. specialize (Hobs (S j) ltac:(lia)). exact Hobs.
    + intros j Hj. specialize (Htime (S j) ltac:(lia)).
      rewrite now_sleep. lia.
Qed.

Lemma waitLoop_resolved approvalId startTime timeoutMs fuel w a :
  now w - startTime < timeoutMs ->
  approvals w !! approvalId = Some a -> ap_status a <> PENDING ->
  result (ApprovalEngine.waitLoop (S fuel) approvalId startTime timeoutMs) w
  = Ret (ap_status a).
Proof.
  intros Ht Ha Hst. apply Z.ltb_lt in Ht.
  unfold result. cbn [ApprovalEngine.waitLoop]. unfold Date_now at 1.
  rewrite bind_gets, Ht. unfold MemoryEngine.getApproval.
  rewrite bind_gets, Ha. rewrite bool_decide_eq_false_2 by done.
  reflexivity.
Qed.

Lemma waitLoop_not_found approvalId startTime timeoutMs fuel w :
  now w - startTime < timeoutMs ->
  approvals w !! approvalId = None ->
  result (ApprovalEngine.waitLoop (S fuel) approvalId startTime timeoutMs) w
  = Throw (newError ("Approval " +:+ approvalId +:+ " not found")).
Proof.
  intros Ht Ha. apply Z.ltb_lt in Ht.
  unfold result. cbn [ApprovalEngine.waitLoop]. unfold Date_now at 1.
  rewrite bind_gets, Ht. unfold MemoryEngine.getApproval.
  rewrite bind_gets, Ha. reflexivity.
Qed.

Lemma waitLoop_deadline approvalId startTime timeoutMs fuel w :
  timeoutMs <= now w - startTime ->
  ApprovalEngine.waitLoop fuel approvalId startTime timeoutMs w
  = (Ret TIMEOUT,
     set_logs (cons (mkLog None LT_WARNING LL_WARNING
                       ("Approval " +:+ approvalId +:+ " timed out")))
       (set_approvals
          (alter (MemoryEngine.resolve TIMEOUT None None) approvalId) w)).
Proof.
  intros Ht. apply Z.ltb_ge in Ht.
  destruct fuel; cbn [ApprovalEngine.waitLoop]; unfold Date_now at 1;
    rewrite bind_gets, Ht; reflexivity.
Qed.

(** The iteration bound of the model is never reached: [waitForApproval]
    returns or throws. *)
Lemma waitLoop_settles approvalId startTime timeoutMs fuel :
  forall w,
    timeoutMs - (now w - startTime)
    <= ApprovalEngine.pollIntervalMs * Z.of_nat fuel ->
    result (ApprovalEngine.waitLoop fuel approvalId startTime timeoutMs) w
    <> Cut.
Proof.
  unfold ApprovalEngine.pollIntervalMs.
  induction fuel as [|fuel IH]; intros w Hf.
  - unfold result. rewrite waitLoop_deadline by lia. discriminate.
  - destruct (Z_lt_le_dec (now w - startTime) timeoutMs) as [Hlt|Hge].
    2: { unfold result. rewrite waitLoop_deadline by lia. discriminate. }
    destruct (approvals w !! approvalId) as [a|] eqn:Ha.
    2: { rewrite waitLoop_not_found by done. discriminate. }
    destruct (decide (ap_status a = PENDING)) as [Hp|Hp].
    2: { rewrite (waitLoop_resolved _ _ _ _ _ a) by done. discriminate. }
    unfold result.
    rewrite (waitLoop_skip approvalId startTime timeoutMs 1 (S fuel) w).
    + cbn [Nat.sub afterPolls]. rewrite Nat.sub_0_r. apply IH.
      rewrite now_sleep. unfold ApprovalEngine.pollIntervalMs. lia.
    + lia.
    + intros j Hj. assert (j = 0%nat) as -> by lia.
      unfold observed. cbn [afterPolls]. by rewrite Ha, <- Hp.
    + intros j Hj. assert (j = 0%nat) as -> by lia. lia.
Qed.

Lemma waitForApproval_settles approvalId timeoutMs w :
  result (ApprovalEngine.waitForApproval approvalId timeoutMs) w <> Cut.
Proof.
  unfold result, ApprovalEngine.waitForApproval, Logger.approval.
  rewrite (bind_run _ _ _ _ _ (persistLog_run _ _ _ _ _)).
  unfold Date_now. rewrite bind_gets.
  apply waitLoop_settles. cbn [now set_logs].
  pose proof (proj2 (polls_lt timeoutMs (ApprovalEngine.polls timeoutMs))).
  lia.
Qed.

(** C6, as specified, does not hold: the admin approves 7 s after the
    wait began, before the 10 s deadline, and [waitForApproval] still
    returns TIMEOUT, since it polls at 0 s and 5 s and not again. *)
Lemma C6_counterexample :
  statusAfter "ap-1" 7000 lateApprovalWorld = Some APPROVED /\
  statusAfter "ap-1" 10000 lateApprovalWorld = Some APPROVED /\
  result (ApprovalEngine.waitForApproval "ap-1" 10000) lateApprovalWorld
  = Ret TIMEOUT.
Proof. vm_compute. repeat split; reflexivity. Qed.

(** The approval given at 7 s is then overwritten by the timeout. *)
Example late_approval_overwritten :
  ap_status <$>
    approvals (exec (ApprovalEngine.waitForApproval "ap-1" 10000)
                 lateApprovalWorld) !! "ap-1"
  = Some TIMEOUT.
Proof. vm_compute. reflexivity. Qed.

(** C6 (amended): [waitForApproval] reads the record at the polls made
    every 5 s while less than [timeoutMs] has elapsed.  The first poll
    that finds a status other than PENDING ends the wait with that status;
    the first poll that finds no record fails with the not-found error;
    if every poll made before the deadline finds PENDING, the call returns
    TIMEOUT, and a record still PENDING at that moment is marked TIMEOUT. *)
Theorem C6_waitForApproval_by_polls approvalId timeoutMs w :
  let run := ApprovalEngine.waitForApproval approvalId timeoutMs in
  let due (k : nat) :=
    ApprovalEngine.pollIntervalMs * Z.of_nat k < timeoutMs in
  (forall k s,
      due k ->
      (forall j, (j < k)%nat -> observed approvalId j w = Some PENDING) ->
      observed approvalId k w = Some s -> s <> PENDING ->
      result run w = Ret s) /\
  (forall k,
      due k ->
      (forall j, (j < k)%nat -> observed approvalId j w = Some PENDING) ->
      observed approvalId k w = None ->
      result run w
      = Throw (newError ("Approval " +:+ approvalId +:+ " not found"))) /\
  ((forall k, due k -> observed approvalId k w = Some PENDING) ->
   result run w = Ret TIMEOUT /\
   (observed approvalId (ApprovalEngine.polls timeoutMs) w = Some PENDING ->
    ap_status <$> approvals (exec run w) !! approvalId = Some TIMEOUT)).
Proof.
  intros run due.
  set (w0 := set_logs (cons (mkLog None LT_APPROVAL LL_INFO
                               ("Waiting for approval: " +:+ approvalId))) w).
  assert (Erun : run w
    = ApprovalEngine.waitLoop (ApprovalEngine.polls timeoutMs) approvalId
        (now w) timeoutMs w0) by reflexivity.
  assert (Hobs0 : forall j, observed approvalId j w0 = observed approvalId j w).
  { intros j. unfold observed, w0. by rewrite afterPolls_set_logs. }
  assert (Hskip : forall k,
    (k <= ApprovalEngine.polls timeoutMs)%nat ->
    (forall j, (j < k)%nat -> observed approvalId j w = Some PENDING) ->
    run w = ApprovalEngine.waitLoop (ApprovalEngine.polls timeoutMs - k)
              approvalId (now w) timeoutMs (afterPolls k w0)).
  { intros k Hk Hpend. rewrite Erun. apply waitLoop_skip.
    - exact Hk.
    - intros j Hj. rewrite Hobs0. by apply Hpend.
    - intros j Hj. cbn [now w0 set_logs].
      assert (j < ApprovalEngine.polls timeoutMs)%nat as Hj' by lia.
      apply polls_lt in Hj'. lia. }
  assert (Hnow : forall k, now (afterPolls k w0) - now w
                           = ApprovalEngine.pollIntervalMs * Z.of_nat k).
  { intros k. rewrite now_afterPolls. cbn. lia. }
  split; [|split].
  - intros k s Hdue Hpend Hk Hs.
    apply polls_lt in Hdue as Hlt.
    unfold result. rewrite (Hskip k) by (lia || done).
    destruct (ApprovalEngine.polls timeoutMs - k)%nat as [|fuel] eqn:Hf;
      [lia|].
    rewrite <- Hobs0 in Hk. unfold observed in Hk.
    destruct (approvals (afterPolls k w0) !! approvalId) as [a|] eqn:Ha;
      [|done].
    cbn in Hk. injection Hk as <-.
    apply (waitLoop_resolved approvalId (now w) timeoutMs fuel _ a);
      [rewrite Hnow; exact Hdue|exact Ha|exact Hs].
  - intros k Hdue Hpend Hk.
    apply polls_lt in Hdue as Hlt.
    unfold result. rewrite (Hskip k) by (lia || done).
    destruct (ApprovalEngine.polls timeoutMs - k)%nat as [|fuel] eqn:Hf;
      [lia|].
    rewrite <- Hobs0 in Hk. unfold observed in Hk.
    destruct (approvals (afterPolls k w0) !! approvalId) as [a|] eqn:Ha;
      [done|].
    apply waitLoop_not_found; [rewrite Hnow; exact Hdue|exact Ha].
  - intros Hpend.
    assert (Hend : ~ due (ApprovalEngine.polls timeoutMs)).
    { intros H. apply polls_lt in H. lia. }
    unfold result, exec.
    rewrite (Hskip (ApprovalEngine.polls timeoutMs)); [|lia|].
    2: { intros j Hj. apply Hpend, polls_lt, Hj. }
    rewrite waitLoop_deadline by (rewrite Hnow; unfold due in Hend; lia).
    split; [reflexivity|].
    intros Hlast. rewrite <- Hobs0 in Hlast. unfold observed in Hlast.
    cbn [snd approvals set_logs set_approvals].
    rewrite lookup_alter. case_decide; [|done].
    destruct (approvals _ !! approvalId); [reflexivity|done].
Qed.

(** The admin rejects "ap-1" six seconds from now. *)
Lemma C6_witness :
  result (ApprovalEngine.waitForApproval "ap-1" 20000)
    (set_events (fun _ => [(6000, EvApprovalResponse "ap-1" REJECTED "admin")])
       (approvalWorld PENDING))
  = Ret REJECTED /\
  result (ApprovalEngine.waitForApproval "ap-2" 20000) (approvalWorld PENDING)
  = Throw (newError "Approval ap-2 not found") /\
  result (ApprovalEngine.waitForApproval "ap-1" 10000) (approvalWorld PENDING)
  = Ret TIMEOUT /\
  ap_status <$>
    approvals (exec (ApprovalEngine.waitForApproval "ap-1" 10000)
                 (approvalWorld PENDING)) !! "ap-1"
  = Some TIMEOUT.
Proof.
  split; [|split].
  - apply (proj1 (C6_waitForApproval_by_polls "ap-1" 20000 _) 2%nat REJECTED).
    + reflexivity.
    + intros [|[|j]] Hj; [reflexivity|reflexivity|lia].
    + reflexivity.
    + discriminate.
  - apply (proj1 (proj2 (C6_waitForApproval_by_polls "ap-2" 20000 _)) 0%nat).
    + reflexivity.
    + intros j Hj. lia.
    + reflexivity.
  - assert (Hpend : forall k : nat,
        ApprovalEngine.pollIntervalMs * Z.of_nat k < 10000 ->
        observed "ap-1" k (approvalWorld PENDING) = Some PENDING).
    { intros [|[|k]] Hk; [reflexivity|reflexivity|].
      unfold ApprovalEngine.pollIntervalMs in Hk. lia. }
    destruct (proj2 (proj2 (C6_waitForApproval_by_polls "ap-1" 10000
                              (approvalWorld PENDING))) Hpend) as [Hr Hm].
    split; [exact Hr|]. apply Hm. reflexivity.
Defined.

(* ===================================================================== *)
(** * DeploymentEngine: specified behaviour *)
(* ===================================================================== *)

Lemma spawn_run w :
  DeploymentEngine.spawn w
  = (Ret (next_pid w),
     set_next_pid Z.succ
       (set_procs (insert (next_pid w) (mkProc (next_pid w) false None)) w)).
Proof. reflexivity. Qed.

Lemma sleep_single ms w t e :
  events w = [(t, e)] -> t <= now w + ms ->
  sleep ms w
  = (Ret tt,
     set_events (fun _ => [])
       (set_now (fun _ => now w + ms) (apply_event e w))).
Proof.
  intros He Ht. unfold sleep. rewrite He. cbn [run_due].
  apply Z.leb_le in Ht. by rewrite Ht.
Qed.

Lemma execSync_run cmd w :
  exec_outcomes w = [] -> DeploymentEngine.execSync cmd w = (Ret tt, w).
Proof. intros H. unfold DeploymentEngine.execSync. by rewrite H. Qed.

(** C7 (the code departs from the specification): a process that ends by
    itself inside the grace period is reported as deployed.  Install and
    build succeed, the process [spawn] returns ends with some exit code
    before the 2 s wait is over, and [deployAgent] returns a success result
    with its pid: the check after the wait reads [childProcess.killed],
    which a process ending on its own leaves false. *)
Theorem C7_process_exit_in_grace_period_reported_success
    w agentId agentName strategy t code :
  target strategy = LOCAL ->
  exec_outcomes w = [] ->
  events w = [(t, EvProcessExit (next_pid w) code)] ->
  t <= now w + 2000 ->
  let w' := exec (DeploymentEngine.deployAgent agentId agentName strategy) w in
  result (DeploymentEngine.deployAgent agentId agentName strategy) w
  = Ret {| success := true; deployment_id := Some agentId;
           process_id := Some (next_pid w); container_id := None;
           error_message := None |} /\
  procs w' !! next_pid w = Some (mkProc (next_pid w) false (Some code)).
Proof.
  intros Ht Hx He Hle w'. subst w'. set (p := next_pid w).
  assert (Hlocal : forall w0,
    exec_outcomes w0 = [] -> events w0 = events w -> now w0 = now w ->
    next_pid w0 = p ->
    exists w3,
      DeploymentEngine.deployLocal agentId agentName strategy w0
      = (Ret {| success := true; deployment_id := Some agentId;
                process_id := Some p; container_id := None;
                error_message := None |}, w3) /\
      procs w3 !! p = Some (mkProc p false (Some code))).
  { intros w0 Hx0 He0 Hn0 Hp0. eexists. split.
    - unfold DeploymentEngine.deployLocal. apply try_catch_run.
      unfold Logger.info.
      rewrite (bind_run _ _ _ _ _ (persistLog_run _ _ _ _ _)).
      match goal with
      | |- context [(DeploymentEngine.execSync ?c ≫= ?k) ?w'] =>
          rewrite (bind_run (DeploymentEngine.execSync c) k w' tt w'
                     (execSync_run c w' Hx0))
      end.
      rewrite (bind_run _ _ _ _ _ (persistLog_run _ _ _ _ _)).
      match goal with
      | |- context [(DeploymentEngine.execSync ?c ≫= ?k) ?w'] =>
          rewrite (bind_run (DeploymentEngine.execSync c) k w' tt w'
                     (execSync_run c w' Hx0))
      end.
      rewrite (bind_run _ _ _ _ _ (persistLog_run _ _ _ _ _)).
      rewrite (bind_run _ _ _ _ _ (spawn_run _)).
      cbn [next_pid set_logs]. rewrite Hp0.
      rewrite bind_modify.
      match goal with
      | |- context [(sleep 2000 ≫= ?k) ?w'] =>
          rewrite (bind_run (sleep 2000) k w' tt _
                     (sleep_single 2000 w' t (EvProcessExit p code)
                        ltac:(cbn; rewrite He0; exact He)
                        ltac:(cbn; rewrite Hn0; exact Hle)))
      end.
      rewrite bind_gets.
      unfold DeploymentEngine.proc_killed. cbn [procs apply_event set_events
        set_now set_procs set_processes set_next_pid set_logs].
      rewrite lookup_alter. case_decide; [|done].
      rewrite lookup_insert_eq. reflexivity.
    - cbn [procs apply_event set_events set_now set_procs set_processes
           set_next_pid set_logs].
      rewrite lookup_alter. case_decide; [|done].
      by rewrite lookup_insert_eq. }
  destruct (Hlocal (set_logs
                      (cons (mkLog (truthy (Some agentId)) LT_DEPLOYMENT
                               LL_INFO
                               ("Starting deployment: " +:+ agentName
                                  +:+ " to " +:+ DeploymentTarget_str LOCAL)))
                      w) Hx eq_refl eq_refl eq_refl) as (w3 & E & Hp).
  unfold exec, result, DeploymentEngine.deployAgent, Logger.deployment.
  rewrite (bind_run _ _ _ _ _ (persistLog_run _ _ _ _ _)). rewrite Ht.
  erewrite try_catch_run.
  2: { rewrite (bind_run _ _ _ _ _ E). reflexivity. }
  split; [reflexivity|]. exact Hp.
Qed.

Lemma C7_witness :
  result (DeploymentEngine.deployAgent "a1" "echo-bot" localStrategy)
    crashingWorld
  = Ret {| success := true; deployment_id := Some "a1";
           process_id := Some 1000; container_id := None;
           error_message := None |} /\
  procs (exec (DeploymentEngine.deployAgent "a1" "echo-bot" localStrategy)
           crashingWorld) !! 1000
  = Some (mkProc 1000 false (Some 1)).
Proof.
  apply (C7_process_exit_in_grace_period_reported_success crashingWorld
           "a1" "echo-bot" localStrategy 1000 1);
    [reflexivity|reflexivity|reflexivity|vm_compute; discriminate].
Defined.

(** ** Resource limits *)







(** ** The options that reach the container runtime *)









(* ===================================================================== *)
(** * MonitorEngine: the autonomous restart *)
(* ===================================================================== *)

Lemma checkAlertConditions_loop_returns agentId agentName h conditions :
  Returns (MonitorEngine.checkAlertConditions_loop agentId agentName h
             conditions).
Proof. induction conditions as [|c rest IH]; simpl; shape; exact IH. Qed.

Lemma checkAlertConditions_loop_calls agentId agentName h conditions :
  Frame calls (MonitorEngine.checkAlertConditions_loop agentId agentName h
                 conditions).
Proof. induction conditions as [|c rest IH]; simpl; frame; exact IH. Qed.

Lemma checkAlertConditions_loop_sessions agentId agentName h conditions :
  Frame sessions (MonitorEngine.checkAlertConditions_loop agentId agentName h
                    conditions).
Proof. induction conditions as [|c rest IH]; simpl; frame; exact IH. Qed.

Lemma handleUnhealthy_spec agentId agentName reason strategy w :
  let w' := exec (MonitorEngine.handleUnhealthy agentId agentName reason
                    strategy) w in
  result (MonitorEngine.handleUnhealthy agentId agentName reason strategy) w
    = Ret tt /\
  sessions w' = sessions w /\
  calls w' = (calls w ++
    match sessions w !! agentId with
    | Some session => autoRestartOf agentId (healthHistory session)
    | None => []
    end)%list.
Proof.
  unfold MonitorEngine.handleUnhealthy, Logger.monitoring, Logger.persistLog,
    MemoryEngine.log, Telegram.sendAlert, Telegram.send, autoRestartOf.
  unfold_monad. cbn -[Nat.leb].
  destruct (sessions w !! agentId) as [session|]; cbn -[Nat.leb].
  2: { by rewrite List.app_nil_r. }
  destruct (3 <=? MonitorEngine.recentUnhealthy (healthHistory session))%nat;
    cbn -[Nat.leb].
  2: { by rewrite List.app_nil_r. }
  match goal with
  | |- context [DeploymentEngine.restartAgent agentId ?w1] =>
      destruct (call_returns (DeploymentEngine.restartAgent agentId) w1
                  (restartAgent_returns agentId)) as (b & w2 & E);
      pose proof (frame_at calls _ _ _ _ (restartAgent_calls agentId) E) as Hc;
      pose proof (frame_at sessions _ _ _ _ (restartAgent_sessions agentId) E)
        as Hs;
      rewrite E
  end.
  simpl in *.
  destruct b; unfold Telegram.sendStatusUpdate, Telegram.sendError,
    Telegram.send; unfold_monad; simpl; rewrite Hc, Hs; done.
Qed.

Lemma isAgentRunning_calls agentId :
  Frame calls (DeploymentEngine.isAgentRunning agentId).
Proof. frame. Qed.

Lemma isAgentRunning_sessions agentId :
  Frame sessions (DeploymentEngine.isAgentRunning agentId).
Proof. frame. Qed.

Lemma handleUnhealthy_run agentId agentName reason strategy w :
  exists w',
    MonitorEngine.handleUnhealthy agentId agentName reason strategy w
      = (Ret tt, w') /\
    sessions w' = sessions w /\
    calls w' = (calls w ++
      match sessions w !! agentId with
      | Some session => autoRestartOf agentId (healthHistory session)
      | None => []
      end)%list.
Proof.
  pose proof (handleUnhealthy_spec agentId agentName reason strategy w)
    as (Hr & Hs & Hc).
  unfold exec, result in *.
  destruct (MonitorEngine.handleUnhealthy _ _ _ _ w) as [o w'].
  cbn in *. subst o. eauto.
Qed.

(** C8 (amended): the autonomous restart of a monitoring tick.  On a tick
    that records a health check [h], [handleUnhealthy] runs only when [h]
    itself is unhealthy (the agent is not running); then exactly one
    restart is requested if at least 3 of the last 5 recorded checks, [h]
    included, are unhealthy, and none otherwise.  A tick whose check is
    healthy or degraded requests none, however many of the last 5 are
    unhealthy.  A tick that finds no deployment records nothing and
    requests one restart if at least 3 of the last 5 checks already
    recorded are unhealthy.  None of this depends on the alert conditions
    of the strategy. *)
Theorem C8_autonomous_restart cfg agentId agentName strategy w session :
  sessions w !! agentId = Some session ->
  let tick :=
    MonitorEngine.performHealthCheck cfg agentId agentName strategy in
  match deployments w !! agentId with
  | None =>
      sessions (exec tick w) = sessions w /\
      calls (exec tick w)
        = (calls w ++ autoRestartOf agentId (healthHistory session))%list
  | Some _ =>
      exists h,
        (h_status h = unhealthy <->
         result (DeploymentEngine.isAgentRunning agentId) w = Ret false) /\
        sessions (exec tick w)
          = <[agentId := MonitorEngine.with_history
                           (MonitorEngine.push_capped h) session]>
              (sessions w) /\
        calls (exec tick w)
          = (calls w ++
             if MonitorEngine.is_unhealthy h
             then autoRestartOf agentId
                    (MonitorEngine.push_capped h (healthHistory session))
             else [])%list
  end.
Proof.
  intros Hs tick. unfold exec.
  remember (tick w) as r eqn:Er. subst tick.
  unfold MonitorEngine.performHealthCheck in Er.
  destruct (deployments w !! agentId) as [d|] eqn:Hd.
  - (* a deployment is recorded *)
    destruct (call_returns (DeploymentEngine.isAgentRunning agentId) w
                (isAgentRunning_returns agentId)) as (isRunning & w1 & E1).
    pose proof (frame_at calls _ _ _ _ (isAgentRunning_calls agentId) E1)
      as Hc1.
    pose proof (frame_at sessions _ _ _ _ (isAgentRunning_sessions agentId) E1)
      as Hs1.
    unfold result. rewrite E1. cbn [fst].
    set (errorCount := Z.of_nat (length
      (take 10 (filter (fun e => MemoryEngine.matches_agent (Some agentId) e
                  && MemoryEngine.matches_level (Some LL_ERROR) e = true)
                  (logs w1))))).
    set (sti := if negb isRunning
                then (unhealthy, ["Agent is not running"])
                else if alertErrorThreshold cfg <? errorCount
                     then (degraded,
                           ["High error count: " +:+ pretty errorCount])
                     else (healthy, [])).
    set (h := {| h_agent_id := agentId; h_agent_name := agentName;
                 h_status := sti.1; uptime_ms := now w1 - deployedAt d;
                 metrics := {[ "error_count" := errorCount ]};
                 issues := sti.2 |}).
    set (w2 := set_logs
                 (cons (mkLog (truthy (Some agentId)) LT_MONITORING LL_INFO
                          ("Health check: " +:+ HealthKind_str sti.1)))
                 (set_sessions
                    (alter (MonitorEngine.with_history
                              (MonitorEngine.push_capped h)) agentId) w1)).
    destruct (call_returns
                (MonitorEngine.checkAlertConditions_loop agentId agentName h
                   (alert_conditions strategy)) w2
                (checkAlertConditions_loop_returns _ _ _ _))
      as ([] & w3 & E3).
    pose proof (frame_at calls _ _ _ _
                  (checkAlertConditions_loop_calls _ _ _ _) E3) as Hc3.
    pose proof (frame_at sessions _ _ _ _
                  (checkAlertConditions_loop_sessions _ _ _ _) E3) as Hs3.
    cbn in Hc3, Hs3.
    destruct (handleUnhealthy_run agentId agentName
                (MonitorEngine.join ", " sti.2) strategy w3)
      as (w4 & E4 & Hs4 & Hc4).
    assert (Hst : sti.1 = unhealthy <-> isRunning = false).
    { subst sti. destruct isRunning; cbn.
      - destruct (alertErrorThreshold cfg <? errorCount); cbn;
          split; discriminate.
      - done. }
    assert (Hlook : sessions w3 !! agentId
                    = Some (MonitorEngine.with_history
                              (MonitorEngine.push_capped h) session)).
    { rewrite Hs3, Hs1, lookup_alter. case_decide; [|done]. by rewrite Hs. }
    assert (Hmap : sessions w3
                   = <[agentId := MonitorEngine.with_history
                                    (MonitorEngine.push_capped h) session]>
                       (sessions w)).
    { rewrite Hs3, Hs1. apply map_eq. intros k.
      rewrite lookup_alter, lookup_insert.
      case_decide; subst; [by rewrite Hs|done]. }
    assert (Erun : r = (Ret tt, if bool_decide (sti.1 = unhealthy)
                                then w4 else w3)).
    { rewrite Er. apply try_catch_run.
      rewrite bind_gets, Hs. unfold DeploymentEngine.getDeploymentStatus.
      rewrite bind_gets, Hd. rewrite (bind_run _ _ _ _ _ E1).
      unfold MemoryEngine.getRecentErrors, MemoryEngine.getLogs.
      rewrite bind_gets. unfold Date_now. rewrite bind_gets.
      fold errorCount. fold sti. destruct sti as [st issues_] eqn:Hsti.
      cbn [fst snd] in *. fold h.
      rewrite bind_modify. unfold Logger.monitoring.
      rewrite (bind_run _ _ _ _ _ (persistLog_run _ _ _ _ _)).
      unfold MonitorEngine.checkAlertConditions.
      fold w2.
      rewrite (bind_run _ _ _ _ _ E3).
      destruct (bool_decide (st = unhealthy)); [exact E4|reflexivity]. }
    exists h. rewrite Erun. cbn [snd fst].
    split; [|split].
    + cbn [h_status h]. rewrite Hst. split; [intros ->; reflexivity|].
      intros H. by inversion H.
    + destruct (bool_decide (sti.1 = unhealthy)); [rewrite Hs4|]; exact Hmap.
    + unfold MonitorEngine.is_unhealthy. cbn [h_status h].
      destruct (bool_decide (sti.1 = unhealthy)).
      * rewrite Hc4, Hlook, Hc3, Hc1. reflexivity.
      * rewrite Hc3, Hc1. by rewrite List.app_nil_r.
  - (* no deployment *)
    destruct (handleUnhealthy_run agentId agentName "No deployment found"
                strategy w) as (w4 & E4 & Hs4 & Hc4).
    assert (Erun : r = (Ret tt, w4)).
    { rewrite Er. apply try_catch_run.
      rewrite bind_gets, Hs. unfold DeploymentEngine.getDeploymentStatus.
      rewrite bind_gets, Hd. exact E4. }
    rewrite Erun. cbn [snd]. rewrite Hs4, Hc4, Hs. done.
Qed.

(** C8, as specified, does not hold: three of the four checks on record
    are unhealthy, the agent runs again, and the tick records a healthy
    check; three of the last five checks are unhealthy and no restart is
    requested. *)
Lemma C8_counterexample :
  let w := monitoredWorld [check unhealthy; check unhealthy; check unhealthy;
                           check healthy] true in
  let w' := exec (MonitorEngine.performHealthCheck defaultConfig "a1"
                    "echo-bot" noAlerts) w in
  ((fun s => MonitorEngine.recentUnhealthy (healthHistory s))
     <$> sessions w' !! "a1") = Some 3%nat /\
  ((fun s => h_status <$> healthHistory s) <$> sessions w' !! "a1")
  = Some [unhealthy; unhealthy; unhealthy; healthy; healthy] /\
  calls w' = [].
Proof. vm_compute. repeat split; reflexivity. Qed.

(** The agent has lost its process: the tick records the third unhealthy
    check of the last four. *)
Lemma C8_witness :
  let w := monitoredWorld [check unhealthy; check unhealthy; check healthy]
             false in
  let session := mkSession "a1" "echo-bot" noAlerts 0
                   [check unhealthy; check unhealthy; check healthy] in
  let tick := MonitorEngine.performHealthCheck defaultConfig "a1" "echo-bot"
                restartOnError in
  sessions w !! "a1" = Some session /\
  exists h,
    (h_status h = unhealthy <->
     result (DeploymentEngine.isAgentRunning "a1") w = Ret false) /\
    sessions (exec tick w)
    = <["a1" := MonitorEngine.with_history (MonitorEngine.push_capped h)
                  session]> (sessions w) /\
    calls (exec tick w)
    = (calls w ++
       if MonitorEngine.is_unhealthy h
       then autoRestartOf "a1"
              (MonitorEngine.push_capped h (healthHistory session))
       else [])%list.
Proof.
  intros w session tick. split; [reflexivity|].
  apply (C8_autonomous_restart defaultConfig "a1" "echo-bot" restartOnError w
           session eq_refl).
Defined.

Example tick_restarts_once :
  calls (exec (MonitorEngine.performHealthCheck defaultConfig "a1" "echo-bot"
                 restartOnError)
           (monitoredWorld [check unhealthy; check unhealthy; check healthy]
              false))
  = [AutoRestart "a1"].
Proof. vm_compute. reflexivity. Qed.

Example tick_two_of_five :
  calls (exec (MonitorEngine.performHealthCheck defaultConfig "a1" "echo-bot"
                 restartOnError)
           (monitoredWorld [check healthy; check healthy; check healthy;
                            check unhealthy] false))
  = [].
Proof. vm_compute. reflexivity. Qed.

(* ===================================================================== *)
(** * RecoveryEngine: the retry budget *)
(* ===================================================================== *)

(** Agent ids are the UUIDs of the agents table and contain no colon;
    for such ids the counters of distinct pairs do not collide. *)
Lemma attemptKey_inj agentId1 failureType1 agentId2 failureType2 :
  (forall i, String.get i agentId1 <> Some ":"%char) ->
  (forall i, String.get i agentId2 <> Some ":"%char) ->
  RecoveryEngine.attemptKey agentId1 failureType1
  = RecoveryEngine.attemptKey agentId2 failureType2 ->
  agentId1 = agentId2 /\ failureType1 = failureType2.
Proof.
  unfold RecoveryEngine.attemptKey.
  revert agentId2.
  induction agentId1 as [|c1 s1 IH]; intros [|c2 s2] H1 H2 E;
    repeat match type of E with
      | context [String ?c ?s +:+ ?t] =>
          change (String c s +:+ t) with (String c (s +:+ t)) in E
      | context ["" +:+ ?t] => change ("" +:+ t) with t in E
      end.
  - by injection E as ->.
  - injection E as <- _. by destruct (H2 0%nat).
  - injection E as -> _. by destruct (H1 0%nat).
  - injection E as -> E.
    destruct (IH s2) as [-> ->]; [| |exact E|done].
    + intros i. apply (H1 (S i)).
    + intros i. apply (H2 (S i)).
Qed.




(** A call of [recover] for a known agent whose budget is spent. *)
Lemma recover_exhausted cfg agentId failureType error context w a :
  agents w !! agentId = Some a ->
  (maxRetryAttempts cfg
     <= RecoveryEngine.getRecoveryAttempts agentId failureType w)%nat ->
  let n := RecoveryEngine.getRecoveryAttempts agentId failureType w in
  RecoveryEngine.recover cfg agentId failureType error context w
  = (Ret false,
     set_logs
       (fun l =>
          mkLog (truthy (Some agentId)) LT_ERROR LL_ERROR
            ("Agent transitioned to FAILED state: Recovery failed: "
               +:+ failureType)
          :: mkLog (truthy (Some agentId)) LT_ERROR LL_ERROR
               ("Max recovery attempts (" +:+ pretty (maxRetryAttempts cfg)
                  +:+ ") exceeded for " +:+ failureType)
          :: mkLog (truthy (Some agentId)) LT_ERROR LL_ERROR
               ("Recovery initiated for " +:+ failureType)
          :: l)
       (set_agents (alter (MemoryEngine.with_status FAILED) agentId)
          (set_outbox
             (fun o => (o ++ [ErrorMsg (name a)
                                ("Recovery failed after " +:+ pretty n
                                   +:+ " attempts: " +:+ failureType)
                                (stack error)])%list)
             w))).
Proof.
  intros Ha Hn n. unfold RecoveryEngine.recover, MemoryEngine.getAgent.
  rewrite bind_gets, Ha. unfold Logger.error.
  rewrite (bind_run _ _ _ _ _ (persistLog_run _ _ _ _ _)).
  rewrite bind_gets. cbn [recoveryAttempts set_logs].
  change (RecoveryEngine.getRecoveryAttempts agentId failureType
            (set_logs _ w)) with n.
  apply Nat.leb_le in Hn. fold n in Hn. rewrite Hn.
  rewrite (bind_run _ _ _ _ _ (persistLog_run _ _ _ _ _)).
  unfold Telegram.sendError.
  rewrite (bind_run _ _ _ _ _ (send_run _ _)).
  erewrite (bind_run _ _ _ _ _ (transitionToFailed_run _ _ _ _ a _)).
  reflexivity.
  Unshelve. exact Ha.
Qed.








(* ===================================================================== *)
(** * RecoveryEngine: specified behaviour *)
(* ===================================================================== *)



(** C9, as specified, does not hold: after the exhausted recovery of
    "echo-bot" the FAILED transition is logged with the reason "Recovery
    failed: generation_failure"; the text with the attempt count is
    nowhere in the log, it is the text of the admin notification. *)
Lemma C9_counterexample :
  let w' := exec (RecoveryEngine.recover defaultConfig "a1"
                    "generation_failure" boom None) (retriedWorld 3) in
  stateOf w' "a1" = Some FAILED /\
  (failedLogLine "Recovery failed after 3 attempts: generation_failure"
     ∉ (log_message <$> logs w')) /\
  (failedLogLine "Recovery failed: generation_failure"
     ∈ (log_message <$> logs w')) /\
  last (outbox w')
  = Some (ErrorMsg "echo-bot"
            "Recovery failed after 3 attempts: generation_failure"
            (stack boom)).
Proof.
  vm_compute. split; [reflexivity|]. split; [|split].
  - intros H.
    repeat (apply elem_of_cons in H as [H|H]; [discriminate H|]).
    by apply elem_of_nil in H.
  - by left.
  - reflexivity.
Qed.

(** C9 (amended): when the budget of an agent for [generation_failure] is
    spent at ceiling 3, the next [recover] returns [false] and moves the
    agent to FAILED with the reason "Recovery failed: generation_failure"
    (the newest log row is "Agent transitioned to FAILED state: Recovery
    failed: generation_failure"); the text "Recovery failed after 3
    attempts: generation_failure" is that of the error notice sent to the
    admin just before. *)
Theorem C9_exhausted_generation_failure agentId error context w a :
  agents w !! agentId = Some a ->
  RecoveryEngine.getRecoveryAttempts agentId "generation_failure" w = 3%nat ->
  let run := RecoveryEngine.recover defaultConfig agentId "generation_failure"
               error context in
  result run w = Ret false /\
  stateOf (exec run w) agentId = Some FAILED /\
  head (logs (exec run w))
  = Some (mkLog (truthy (Some agentId)) LT_ERROR LL_ERROR
            (failedLogLine "Recovery failed: generation_failure")) /\
  last (outbox (exec run w))
  = Some (ErrorMsg (name a)
            "Recovery failed after 3 attempts: generation_failure"
            (stack error)).
Proof.
  intros Ha Hn run. unfold run, exec, result.
  rewrite (recover_exhausted defaultConfig agentId "generation_failure" error
             context w a Ha) by (rewrite Hn; cbn; lia).
  rewrite Hn.
  cbn [fst snd logs outbox set_logs set_agents set_outbox head].
  split; [reflexivity|]. split; [|split].
  - unfold stateOf. cbn [agents set_logs set_agents set_outbox].
    rewrite lookup_alter. case_decide; [|done]. by rewrite Ha.
  - reflexivity.
  - by rewrite last_snoc.
Qed.

Lemma C9_witness :
  result (RecoveryEngine.recover defaultConfig "a1" "generation_failure" boom
            None) (retriedWorld 3) = Ret false /\
  stateOf (exec (RecoveryEngine.recover defaultConfig "a1"
                   "generation_failure" boom None) (retriedWorld 3)) "a1"
  = Some FAILED.
Proof.
  destruct (C9_exhausted_generation_failure "a1" boom None (retriedWorld 3)
              (someAgent GENERATING) eq_refl eq_refl) as (Hr & Hs & _).
  split; [exact Hr|exact Hs].
Defined.
